(** * PKONE hardware platform: board registry, number parsing, frame decoding

    A shallow embedding of [mpf/platforms/pkone/pkone.py] (class
    [PKONEHardwarePlatform]) and [mpf/platforms/pkone/pkone_servo.py] (class
    [PKONEServo]).  Methods that mutate the platform object are functions in
    a state-and-exception monad over a record holding the attributes they
    touch; Python exceptions are values of [exn]. *)

From Stdlib Require Import ZArith String Ascii List Bool Lia.
From Stdlib Require Import Floats.SpecFloat.
From stdpp Require Import base option list gmap strings pretty.

Open Scope string_scope.
Open Scope Z_scope.

(** ** Exceptions *)

(** The source raises [AssertionError] everywhere; the constructor records
    which message was used. *)
Inductive assertion : Type :=
  | DuplicateAddress           (* "Duplicate address id: a board has already been registered ..." *)
  | AddressOutOfRange          (* "Address out of range: ... board address id must be between ..." *)
  | InvalidFormat              (* "Invalid coil/servo/switch number ..." *)
  | UnknownBoard               (* "PKONE Extension ... does not exist for ..." *)
  | IndexOutOfRange            (* "PKONE Extension ... only has ... coils/servos/switches" *)
  | CrossBoardMismatch         (* "Driver ... and switch ... are on different boards." *)
  | UnsupportedHardwareFeature (* "Single-wound coils with EOS are not implemented ..." *)
  | PositionOutOfRange.        (* "Position has to be between 0 and 1" *)

Inductive exn : Type :=
  | AssertionError (a : assertion)
  | ValueError
  | IndexError
  | TypeError
  | OverflowError.

Inductive result (A : Type) : Type :=
  | Ok (a : A)
  | Raise (e : exn).
Arguments Ok {A} a.
Arguments Raise {A} e.

(** ** Python dictionaries with insertion order

    [pkone_extensions] is iterated with [.values()], so the order in which
    keys were first inserted is part of its value. *)
Module Dict.

Definition t (V : Type) : Type := list (Z * V).

Definition empty {V} : t V := [].

Fixpoint get {V} (k : Z) (d : t V) : option V :=
  match d with
  | [] => None
  | (k', v) :: d' => if Z.eqb k k' then Some v else get k d'
  end.

(** [k in d] *)
Definition mem {V} (k : Z) (d : t V) : bool :=
  match get k d with Some _ => true | None => false end.

(** [d[k] = v]: an existing key keeps its position, a new one goes last. *)
Fixpoint set {V} (k : Z) (v : V) (d : t V) : t V :=
  match d with
  | [] => [(k, v)]
  | (k', v') :: d' =>
      if Z.eqb k k' then (k', v) :: d' else (k', v') :: set k v d'
  end.

(** [d.values()] *)
Definition values {V} (d : t V) : list V := map snd d.

End Dict.

(** ** Boards and the platform object *)

(** The board classes are declared outside these two files; the record
    carries the attributes the platform reads from a board. *)
Record Board : Type := mkBoard {
  address_id : Z;
  coil_count : Z;
  switch_count : Z;
  servo_count : Z;
  firmware_version : string;
  hardware_rev : string
}.

(** [PKONESwitchNumber(board_address_id, switch_number)] and its siblings
    for coils and servos. *)
Record PKONESwitchNumber : Type := mkSwitchNumber {
  sw_board_address_id : Z; switch_number : Z }.
Record PKONECoilNumber : Type := mkCoilNumber {
  coil_board_address_id : Z; coil_number : Z }.
Record PKONEServoNumber : Type := mkServoNumber {
  board_address_id : Z; servo_number : Z }.

(** The attributes of [PKONEHardwarePlatform] used below, plus the two
    outward effects of the methods: commands handed to the connection's
    [send], and switch changes handed to
    [machine.switch_controller.process_switch_by_num]. *)
Record Platform : Type := mkPlatform {
  pkone_extensions : Dict.t Board;
  pkone_lightshows : Dict.t Board;
  hw_switch_data : option (gmap string Z);
  sent : list string;
  processed_switches : list (PKONESwitchNumber * Z)
}.

(** The state set up by [__init__]. *)
Definition init : Platform :=
  {| pkone_extensions := Dict.empty;
     pkone_lightshows := Dict.empty;
     hw_switch_data := None;
     sent := [];
     processed_switches := [] |}.

Definition with_extensions (d : Dict.t Board) (p : Platform) : Platform :=
  {| pkone_extensions := d;
     pkone_lightshows := pkone_lightshows p;
     hw_switch_data := hw_switch_data p;
     sent := sent p;
     processed_switches := processed_switches p |}.

Definition with_lightshows (d : Dict.t Board) (p : Platform) : Platform :=
  {| pkone_extensions := pkone_extensions p;
     pkone_lightshows := d;
     hw_switch_data := hw_switch_data p;
     sent := sent p;
     processed_switches := processed_switches p |}.

Definition with_hw_switch_data (m : option (gmap string Z)) (p : Platform) : Platform :=
  {| pkone_extensions := pkone_extensions p;
     pkone_lightshows := pkone_lightshows p;
     hw_switch_data := m;
     sent := sent p;
     processed_switches := processed_switches p |}.

(** ** The method monad: state threaded through, exceptions as results.

    A raised exception leaves the state as it was at the [raise]. *)
Definition M (A : Type) : Type := Platform -> result A * Platform.

Definition ret {A} (a : A) : M A := fun p => (Ok a, p).
Definition raise {A} (e : exn) : M A := fun p => (Raise e, p).
Definition bind {A B} (c : M A) (k : A -> M B) : M B :=
  fun p => match c p with
           | (Ok a, p') => k a p'
           | (Raise e, p') => (Raise e, p')
           end.
Definition gets {A} (f : Platform -> A) : M A := fun p => (Ok (f p), p).
Definition modify (f : Platform -> Platform) : M unit := fun p => (Ok tt, f p).
Definition lift {A} (r : result A) : M A := fun p => (r, p).

Notation "'let*' x ':=' c 'in' k" := (bind c (fun x => k))
  (at level 10, x name, c at level 100, k at level 200).
Notation "'run' c 'in' k" := (bind c (fun _ => k))
  (at level 10, c at level 100, k at level 200).

(** [x in range(n)] for an integer [x] *)
Definition in_range (n x : Z) : bool := (0 <=? x) && (x <? n).

(** ** Board registration (pkone.py, lines 135-155) *)

Definition register_extension_board (board : Board) : M unit :=
  let* exts := gets pkone_extensions in
  let* lights := gets pkone_lightshows in
  if Dict.mem (address_id board) exts || Dict.mem (address_id board) lights
  then raise (AssertionError DuplicateAddress)
  else if negb (in_range 8 (address_id board))
  then raise (AssertionError AddressOutOfRange)
  else modify (fun p => with_extensions
                 (Dict.set (address_id board) board (pkone_extensions p)) p).

(** Line 155 stores the board with [self.pkone_extensions[...] = board]. *)
Definition register_lightshow_board (board : Board) : M unit :=
  let* exts := gets pkone_extensions in
  let* lights := gets pkone_lightshows in
  if Dict.mem (address_id board) exts || Dict.mem (address_id board) lights
  then raise (AssertionError DuplicateAddress)
  else if negb (in_range 4 (address_id board))
  then raise (AssertionError AddressOutOfRange)
  else modify (fun p => with_extensions
                 (Dict.set (address_id board) board (pkone_extensions p)) p).

(** ** The Python built-ins the methods rely on

    Text is ASCII here: [string] is Rocq's list of 8-bit characters. *)
Module Py.

(** [s.split(sep)] with a one-character separator; never the empty list. *)
Fixpoint split (sep : ascii) (s : string) : list string :=
  match s with
  | EmptyString => [EmptyString]
  | String c r =>
      if Ascii.eqb c sep then EmptyString :: split sep r
      else match split sep r with
           | seg :: segs => String c seg :: segs
           | [] => [String c EmptyString]
           end
  end.

(** The characters [int()] strips from both ends. *)
Definition is_space (c : ascii) : bool :=
  let n := Z.of_N (N_of_ascii c) in
  ((9 <=? n) && (n <=? 13)) || ((28 <=? n) && (n <=? 32)).

Definition digit (c : ascii) : option Z :=
  let n := Z.of_N (N_of_ascii c) in
  if (48 <=? n) && (n <=? 57) then Some (n - 48) else None.

Fixpoint lstrip (s : string) : string :=
  match s with
  | String c r => if is_space c then lstrip r else s
  | EmptyString => EmptyString
  end.

Fixpoint rstrip (s : string) : string :=
  match s with
  | EmptyString => EmptyString
  | String c r =>
      match rstrip r with
      | EmptyString => if is_space c then EmptyString else String c EmptyString
      | r' => String c r'
      end
  end.

Definition strip (s : string) : string := rstrip (lstrip s).

(** Decimal digits, single underscores allowed between two digits.
    [prev] tells whether the character before was a digit. *)
Fixpoint digits (acc : Z) (prev : bool) (s : string) : option Z :=
  match s with
  | EmptyString => if prev then Some acc else None
  | String c r =>
      match digit c with
      | Some d => digits (10 * acc + d) true r
      | None =>
          if Ascii.eqb c "_"%char && prev then digits acc false r else None
      end
  end.

(** [int(s)] for a string [s]: surrounding whitespace, then an optional
    sign, then the digits; anything else is a [ValueError]. *)
Definition int (s : string) : result Z :=
  let body (neg : bool) (r : string) :=
    match digits 0 false r with
    | Some n => Ok (if neg then - n else n)
    | None => Raise ValueError
    end in
  match strip s with
  | String "-"%char r => body true r
  | String "+"%char r => body false r
  | r => body false r
  end.

(** [str(n)] for an integer. *)
Definition str (n : Z) : string := pretty n.

(** [s[i]] for [i >= 0] *)
Definition index (s : string) (i : nat) : result ascii :=
  match String.get i s with
  | Some c => Ok c
  | None => Raise IndexError
  end.

(** [s[-1]] *)
Definition last (s : string) : result ascii :=
  match s with
  | EmptyString => Raise IndexError
  | _ => index s (String.length s - 1)
  end.

(** [s[a:-b]] for [a >= 0] and [b > 0], and [s[a:]] *)
Definition slice (s : string) (a b : nat) : string :=
  String.substring a (String.length s - b - a) s.
Definition slice_from (s : string) (a : nat) : string :=
  String.substring a (String.length s - a) s.

Definition char (c : ascii) : string := String c EmptyString.

(** [bytearray.extend(s)] with a [str] argument: the iteration hands
    one-character strings to the byte conversion, which raises
    [TypeError] on the first of them; an empty string adds nothing. *)
Definition bytearray_extend (b : list Z) (s : string) : result (list Z) :=
  match s with
  | EmptyString => Ok b
  | String _ _ => Raise TypeError
  end.

(** Floats are IEEE 754 binary64 values. *)
Definition prec : Z := 53.
Definition emax : Z := 1024.
Definition float : Type := spec_float.

(** The float equal to a (small) integer, as in the mixed arithmetic
    [position * 255] and the comparisons [position < 0], [position > 1]. *)
Definition float_of_Z (n : Z) : float := binary_normalize prec emax n 0 false.

(** The float nearest to [m * 2^e]; exact when [m] fits in 53 bits. *)
Definition float_of_dyadic (m e : Z) : float := binary_normalize prec emax m e false.

Definition fmul (x y : float) : float := SFmul prec emax x y.
Definition flt (x y : float) : bool := SFltb x y.

(** [int(x)] for a float: truncation toward zero. *)
Definition int_of_float (x : float) : result Z :=
  match x with
  | S754_zero _ => Ok 0
  | S754_infinity _ => Raise OverflowError
  | S754_nan => Raise ValueError
  | S754_finite s m e =>
      let mag := if 0 <=? e then Z.pos m * 2 ^ e else Z.pos m / 2 ^ (- e) in
      Ok (if s then - mag else mag)
  end.

End Py.

(** Exceptions in code that touches no attribute. *)
Definition rbind {A B} (r : result A) (k : A -> result B) : result B :=
  match r with
  | Ok a => k a
  | Raise e => Raise e
  end.

Notation "'let?' x ':=' c 'in' k" := (rbind c (fun x => k))
  (at level 10, x name, c at level 100, k at level 200).

(** ** Number parsing (pkone.py, lines 157-174, 280-299, 335-351) *)

(** [a, b = number.split("-")] inside [try ... except ValueError]: any
    number of fields other than two is reported as an invalid number. *)
Definition split_number (number : string) : result (string * string) :=
  match Py.split "-" number with
  | [a; b] => Ok (a, b)
  | _ => Raise (AssertionError InvalidFormat)
  end.

Definition _parse_coil_number (number : string) : M PKONECoilNumber :=
  let* fields := lift (split_number number) in
  let* board_id := lift (Py.int (fst fields)) in
  let* coil_num := lift (Py.int (snd fields)) in
  let* exts := gets pkone_extensions in
  match Dict.get board_id exts with
  | None => raise (AssertionError UnknownBoard)
  | Some board =>
      if coil_count board <=? coil_num
      then raise (AssertionError IndexOutOfRange)
      else ret (mkCoilNumber board_id coil_num)
  end.

Definition _parse_servo_number (number : string) : M PKONEServoNumber :=
  let* fields := lift (split_number number) in
  let* board_id := lift (Py.int (fst fields)) in
  let* servo_num := lift (Py.int (snd fields)) in
  let* exts := gets pkone_extensions in
  match Dict.get board_id exts with
  | None => raise (AssertionError UnknownBoard)
  | Some board =>
      let driver_count := coil_count board in
      if servo_count board <=? servo_num - driver_count
      then raise (AssertionError IndexOutOfRange)
      else ret (mkServoNumber board_id servo_num)
  end.

Definition _parse_switch_number (number : string) : M PKONESwitchNumber :=
  let* fields := lift (split_number number) in
  let* board_id := lift (Py.int (fst fields)) in
  let* switch_num := lift (Py.int (snd fields)) in
  let* exts := gets pkone_extensions in
  match Dict.get board_id exts with
  | None => raise (AssertionError UnknownBoard)
  | Some board =>
      if switch_count board <=? switch_num
      then raise (AssertionError IndexOutOfRange)
      else ret (mkSwitchNumber board_id switch_num)
  end.

(** ** Same-board check (pkone.py, lines 318-333)

    [switch_number] and [coil_number] are the two integers the method
    reads off its arguments ([int(switch.hw_switch.number[0])] and
    [int(coil.hw_driver.number)]); the switch and driver classes are
    declared outside these files. *)
Fixpoint check_boards (boards : list Board) (switch_index coil_index : Z)
    (switch_number coil_number : Z) : bool :=
  match boards with
  | [] => false
  | extension_board :: rest =>
      if (switch_index <=? switch_number)
         && (switch_number <? switch_index + switch_count extension_board)
         && (coil_index <=? coil_number)
         && (coil_number <? coil_index + coil_count extension_board)
      then true
      else check_boards rest
             (switch_index + switch_count extension_board)
             (coil_index + coil_count extension_board)
             switch_number coil_number
  end.

Definition _check_switch_coil_combination (switch_number coil_number : Z) : M unit :=
  let* exts := gets pkone_extensions in
  if check_boards (Dict.values exts) 0 0 switch_number coil_number
  then ret tt
  else raise (AssertionError CrossBoardMismatch).

(** ** Hardware rules (pkone.py, lines 200-278)

    The settings tuples and the driver's [set_hardware_rule] and
    [clear_hardware_rule] come from modules outside these files. *)
Section HardwareRules.

Context {Driver SwitchSettings PulseSettings HoldSettings RepulseSettings : Type}.

Record DriverSettings : Type := mkDriverSettings {
  hw_driver : Driver;
  pulse_settings : PulseSettings;
  hold_settings : option HoldSettings
}.

Variable set_hardware_rule :
  Driver -> Z -> SwitchSettings -> option SwitchSettings -> Z ->
  PulseSettings -> option HoldSettings -> M unit.
Variable clear_hardware_rule : Driver -> M unit.

Definition clear_hw_rule (switch : SwitchSettings) (coil : DriverSettings) : M unit :=
  let driver := hw_driver coil in
  clear_hardware_rule driver.

Definition set_pulse_on_hit_rule (enable_switch : SwitchSettings)
    (coil : DriverSettings) : M unit :=
  let driver := hw_driver coil in
  set_hardware_rule driver 1 enable_switch None 0 (pulse_settings coil) None.

Definition set_delayed_pulse_on_hit_rule (enable_switch : SwitchSettings)
    (coil : DriverSettings) (delay_ms : Z) : M unit :=
  let driver := hw_driver coil in
  set_hardware_rule driver 2 enable_switch None delay_ms (pulse_settings coil) None.

Definition set_pulse_on_hit_and_release_rule (enable_switch : SwitchSettings)
    (coil : DriverSettings) : M unit :=
  let driver := hw_driver coil in
  set_hardware_rule driver 3 enable_switch None 0
    (pulse_settings coil) (hold_settings coil).

Definition set_pulse_on_hit_and_enable_and_release_rule
    (enable_switch : SwitchSettings) (coil : DriverSettings) : M unit :=
  let driver := hw_driver coil in
  set_hardware_rule driver 4 enable_switch None 0
    (pulse_settings coil) (hold_settings coil).

Definition set_pulse_on_hit_and_release_and_disable_rule
    (enable_switch eos_switch : SwitchSettings) (coil : DriverSettings)
    (repulse_settings : option RepulseSettings) : M unit :=
  let driver := hw_driver coil in
  set_hardware_rule driver 5 enable_switch (Some eos_switch) 0
    (pulse_settings coil) (hold_settings coil).

Definition set_pulse_on_hit_and_enable_and_release_and_disable_rule
    (enable_switch eos_switch : SwitchSettings) (coil : DriverSettings)
    (repulse_settings : option RepulseSettings) : M unit :=
  raise (AssertionError UnsupportedHardwareFeature).

End HardwareRules.

(** ** Switch state frames (pkone.py, lines 383-421) *)

Definition get_hw_switch_states : M (option (gmap string Z)) :=
  gets hw_switch_data.

(** ["{}-{}".format(extension_id, number)] *)
Definition switch_key (extension_id number : Z) : string :=
  Py.str extension_id +:+ "-" +:+ Py.str number.

(** The inner loop, lines 406-407: one entry per element of the array. *)
Definition store_switch_states (extension_id : Z) (switch_state_array : list Z)
    (hw_states : gmap string Z) : gmap string Z :=
  foldl (fun hw index =>
           match switch_state_array !! index with
           | Some state => <[switch_key extension_id (Z.of_nat index + 1) := state]> hw
           | None => hw
           end)
        hw_states (seq 0 (length switch_state_array)).

(** The outer loop, lines 397-407, over the pieces of the payload. *)
Fixpoint decode_segments (segments : list string) (hw_states : gmap string Z)
    : result (gmap string Z) :=
  match segments with
  | [] => Ok hw_states
  | switch_states :: rest =>
      let? first := Py.index switch_states 0 in
      let? extension_id := Py.int (Py.char first) in
      let? switch_state_array := Py.bytearray_extend [] (Py.slice_from switch_states 1) in
      decode_segments rest (store_switch_states extension_id switch_state_array hw_states)
  end.

Definition decode_all_switches (msg : string) : result (gmap string Z) :=
  decode_segments (Py.split "X" (Py.slice msg 3 1)) ∅.

Definition receive_all_switches (msg : string) : M unit :=
  let* hw_states := lift (decode_all_switches msg) in
  modify (with_hw_switch_data (Some hw_states)).

Definition process_switch_by_num (state : Z) (num : PKONESwitchNumber) : M unit :=
  modify (fun p =>
    {| pkone_extensions := pkone_extensions p;
       pkone_lightshows := pkone_lightshows p;
       hw_switch_data := hw_switch_data p;
       sent := sent p;
       processed_switches := (processed_switches p ++ [(num, state)])%list |}).

Definition receive_switch (msg : string) : M unit :=
  let* board := lift (let? c := Py.index msg 4 in Py.int (Py.char c)) in
  let* number := lift (Py.int (Py.slice msg 5 2)) in
  let switch_number := mkSwitchNumber board number in
  let* switch_state := lift (let? c := Py.last msg in Py.int (Py.char c)) in
  process_switch_by_num switch_state switch_number.

(** ** Servo positions (pkone_servo.py, lines 20-33) *)

Definition send (cmd : string) : M unit :=
  modify (fun p =>
    {| pkone_extensions := pkone_extensions p;
       pkone_lightshows := pkone_lightshows p;
       hw_switch_data := hw_switch_data p;
       sent := (sent p ++ [cmd])%list;
       processed_switches := processed_switches p |}).

(** ['PSC{}{}{}'.format(board_address_id, servo_number, position_numeric)] *)
Definition servo_command (number : PKONEServoNumber) (position_numeric : Z) : string :=
  "PSC" +:+ Py.str (board_address_id number) +:+ Py.str (servo_number number)
        +:+ Py.str position_numeric.

Definition go_to_position (number : PKONEServoNumber) (position : Py.float) : M unit :=
  if Py.flt position (Py.float_of_Z 0) || Py.flt (Py.float_of_Z 1) position
  then raise (AssertionError PositionOutOfRange)
  else
    let* position_numeric :=
      lift (Py.int_of_float (Py.fmul position (Py.float_of_Z 255))) in
    send (servo_command number position_numeric).

(** ** Configuration and session methods (pkone.py, lines 68-98, 176-198,
    301-311, 353-381; pkone_servo.py, lines 15-33)

    These methods read or write three more attributes of the platform
    object: [controller_connection], [serial_connections] and
    [_watchdog_task].  The connection, task and configuration classes
    live outside these files, so their values are kept abstract; calls of
    their [cancel] and [stop] methods are recorded. *)

(** What these methods raise: an exception of the methods above, an
    [AssertionError] with one of three further messages, or the
    [AttributeError] of a method call on [None]. *)
Inductive failure : Type :=
  | Inner (e : exn)
  | NoConnection     (* "A request was made to configure a PKONE ..., but no connection ..." *)
  | NumberRequired   (* "Coil number is required", "Switch requires a number" *)
  | CouldNotParse    (* "Could not parse switch number ..." *)
  | AttributeError.

Inductive outcome (A : Type) : Type :=
  | Done (a : A)
  | Fail (f : failure).
Arguments Done {A} a.
Arguments Fail {A} f.

Section Session.

Context {Connection Task : Type}.

Record Session : Type := mkSession {
  attrs : Platform;
  controller_connection : option Connection;
  serial_connections : list Connection;
  _watchdog_task : option Task;
  cancelled : list Task;
  stopped : list Connection
}.

Definition with_attrs (p : Platform) (s : Session) : Session :=
  {| attrs := p;
     controller_connection := controller_connection s;
     serial_connections := serial_connections s;
     _watchdog_task := _watchdog_task s;
     cancelled := cancelled s;
     stopped := stopped s |}.

(** A method of the earlier part run on the session's platform
    attributes. *)
Definition on_attrs {A} (c : M A) (s : Session) : outcome A * Session :=
  match c (attrs s) with
  | (Ok a, p') => (Done a, with_attrs p' s)
  | (Raise e, p') => (Fail (Inner e), with_attrs p' s)
  end.

(** [stop], lines 68-85.  The 100 ms sleep in the middle has no effect on
    the attributes. *)
Definition stop (s : Session) : Session :=
  let s1 :=
    match controller_connection s with
    | Some _ => with_attrs (snd (send "PRSE" (attrs s))) s
    | None => s
    end in
  let s2 :=
    match _watchdog_task s1 with
    | Some task =>
        {| attrs := attrs s1;
           controller_connection := controller_connection s1;
           serial_connections := serial_connections s1;
           _watchdog_task := None;
           cancelled := (cancelled s1 ++ [task])%list;
           stopped := stopped s1 |}
    | None => s1
    end in
  let s3 :=
    match controller_connection s2 with
    | Some connection =>
        {| attrs := attrs s2;
           controller_connection := None;
           serial_connections := serial_connections s2;
           _watchdog_task := _watchdog_task s2;
           cancelled := cancelled s2;
           stopped := (stopped s2 ++ [connection])%list |}
    | None => s2
    end in
  {| attrs := attrs s3;
     controller_connection := controller_connection s3;
     serial_connections := [];
     _watchdog_task := _watchdog_task s3;
     cancelled := cancelled s3;
     stopped := stopped s3 |}.

(** [_update_watchdog], lines 95-98 *)
Definition _update_watchdog (s : Session) : outcome unit * Session :=
  match controller_connection s with
  | Some _ => on_attrs (send "PWDE") s
  | None => (Fail AttributeError, s)
  end.

(** [configure_driver], lines 176-198.  The coil object is built from the
    configuration, the parsed number and the copied settings. *)
Definition configure_driver {DriverConfig PlatformSettings : Type}
    (config : DriverConfig) (number : string) (platform_settings : PlatformSettings)
    (s : Session)
    : outcome (DriverConfig * PKONECoilNumber * PlatformSettings) * Session :=
  match controller_connection s with
  | None => (Fail NoConnection, s)
  | Some _ =>
      match number with
      | EmptyString => (Fail NumberRequired, s)
      | _ =>
          match on_attrs (_parse_coil_number number) s with
          | (Done coil_number, s') => (Done (config, coil_number, platform_settings), s')
          | (Fail f, s') => (Fail f, s')
          end
      end
  end.

(** [configure_switch], lines 353-381: the number is parsed twice, the
    first time under [except ValueError]. *)
Definition configure_switch {SwitchConfig PlatformConfig : Type}
    (number : string) (config : SwitchConfig) (platform_config : PlatformConfig)
    (s : Session)
    : outcome (SwitchConfig * PKONESwitchNumber) * Session :=
  match number with
  | EmptyString => (Fail NumberRequired, s)
  | _ =>
      match controller_connection s with
      | None => (Fail NoConnection, s)
      | Some _ =>
          match on_attrs (_parse_switch_number number) s with
          | (Fail (Inner ValueError), s1) => (Fail CouldNotParse, s1)
          | (Fail f, s1) => (Fail f, s1)
          | (Done number_tuple, s1) =>
              match on_attrs (_parse_switch_number number) s1 with
              | (Done switch_number, s2) => (Done (config, switch_number), s2)
              | (Fail f, s2) => (Fail f, s2)
              end
          end
      end
  end.

(** [PKONEServo], with the two attributes its constructor stores. *)
Record PKONEServo : Type := mkServo {
  number : PKONEServoNumber;
  platform : option Connection
}.

(** [configure_servo], lines 301-311: the servo is handed the
    controller connection as it is at that moment. *)
Definition configure_servo (number : string) (s : Session)
    : outcome PKONEServo * Session :=
  match on_attrs (_parse_servo_number number) s with
  | (Done servo_number, s') => (Done (mkServo servo_number (controller_connection s')), s')
  | (Fail f, s') => (Fail f, s')
  end.

(** [PKONEServo.go_to_position] on a servo object: the checks and the
    command text are those of [go_to_position] above; the closing
    [self.platform.send(cmd)] needs the servo's own [platform]. *)
Definition servo_go_to_position (servo : PKONEServo) (position : Py.float)
    (s : Session) : outcome unit * Session :=
  match go_to_position (number servo) position (attrs s) with
  | (Raise e, _) => (Fail (Inner e), s)
  | (Ok _, p') =>
      match platform servo with
      | Some _ => (Done tt, with_attrs p' s)
      | None => (Fail AttributeError, s)
      end
  end.

End Session.

(** ** Vocabulary for the statements below *)

(** A board with 4 coils, 8 switches and 2 servos at address [a]. *)
Definition sample_board (a : Z) : Board :=
  mkBoard a 4 8 2 "1.0" "A".

(** Sum of one count over a run of boards: the running total the loop
    holds after walking them. *)
Definition total (count : Board -> Z) (boards : list Board) : Z :=
  foldr (fun b acc => count b + acc) 0 boards.

(** Step [i] of the walk over [boards] accepts the pair. *)
Definition accepts_at (boards : list Board) (switch_number coil_number : Z)
    (i : nat) (b : Board) : Prop :=
  boards !! i = Some b
  /\ total switch_count (take i boards) <= switch_number
     < total switch_count (take i boards) + switch_count b
  /\ total coil_count (take i boards) <= coil_number
     < total coil_count (take i boards) + coil_count b.


(** Two boards of 4 coils and 8 switches each, registered at address 5
    first and at address 2 second. *)
Definition two_boards : Platform :=
  with_extensions [(5, mkBoard 5 4 8 0 "1" "A"); (2, mkBoard 2 4 8 0 "1" "A")] init.

(** A platform whose only board, at address 1, has 4 coils and 2 servos. *)
Definition servo_platform : Platform :=
  with_extensions [(1, sample_board 1)] init.

(** Snapshot frames handed to [receive_all_switches] one after the other;
    a frame that raises is reported to the caller and the next one is
    processed on the state it left. *)
Definition receive_frames (msgs : list string) (p : Platform) : Platform :=
  foldl (fun p msg => snd (receive_all_switches msg p)) p msgs.

(** [round(x)] of a float, ties to the even integer: the rounding the
    specification names for servo positions. *)
Definition py_round (x : Py.float) : result Z :=
  match x with
  | S754_zero _ => Ok 0
  | S754_infinity _ => Raise OverflowError
  | S754_nan => Raise ValueError
  | S754_finite s m e =>
      let mag :=
        if 0 <=? e then Z.pos m * 2 ^ e
        else
          let q := Z.pos m / 2 ^ (- e) in
          let r := Z.pos m mod 2 ^ (- e) in
          match Z.compare (2 * r) (2 ^ (- e)) with
          | Lt => q
          | Gt => q + 1
          | Eq => if Z.even q then q else q + 1
          end in
      Ok (if s then - mag else mag)
  end.

(** The floats 0.5, 1.0 and 1.5. *)
Definition half : Py.float := Py.float_of_dyadic 1 (-1).
Definition one : Py.float := Py.float_of_Z 1.
Definition one_and_half : Py.float := Py.float_of_dyadic 3 (-1).

(** The state after handing [cmd] to the connection. *)
Definition after_send (cmd : string) (p : Platform) : Platform :=
  snd (send cmd p).

(** The result is an [AssertionError], whichever message it carries. *)
Definition raises_assertion {A} (r : result A) : Prop :=
  exists a, r = Raise (AssertionError a).

(** Every character is a decimal digit. *)
Fixpoint plain (s : string) : bool :=
  match s with
  | EmptyString => true
  | String c r =>
      match Py.digit c with Some _ => plain r | None => false end
  end.

(** The text ["<board>-<index>"] the configuration uses for a switch, a
    coil or a servo. *)
Definition number_text (board index : Z) : string :=
  Py.str board +:+ "-" +:+ Py.str index.

(** What [k] one-bit right shifts of the mantissa [M] leave in the shift
    record: the quotient, and sticky bits that are set only if something
    was shifted out. *)
Definition shr_inv (M k : Z) (mrs : shr_record) : Prop :=
  shr_m mrs = M / 2 ^ k
  /\ (shr_r mrs || shr_s mrs = true -> M mod 2 ^ k <> 0).

(** A float that Python can hold: a canonical binary64 value. *)
Definition is_float (x : Py.float) : Prop :=
  valid_binary Py.prec Py.emax x = true.

(** [0 <= position <= 1], which a not-a-number never satisfies. *)
Definition in_unit_interval (position : Py.float) : Prop :=
  SFleb (Py.float_of_Z 0) position = true
  /\ SFleb position (Py.float_of_Z 1) = true.

(** A driver whose [set_hardware_rule] sends one command naming the rule
    kind; used to tell the rules that reach the driver from the one that
    does not. *)
Definition logging_rule (driver : unit) (kind : Z) (enable_switch : unit)
    (eos_switch : option unit) (delay_ms : Z) (pulse : unit)
    (hold : option unit) : M unit :=
  send ("rule " +:+ Py.str kind).

Definition plain_coil : @DriverSettings unit unit unit :=
  mkDriverSettings tt tt None.

(** ** Vocabulary for the further properties *)

(** How often the character [c] occurs in [s]. *)
Fixpoint count_char (c : ascii) (s : string) : nat :=
  match s with
  | EmptyString => 0%nat
  | String x r => ((if Ascii.eqb x c then 1 else 0) + count_char c r)%nat
  end.

(** A registration request, and a run of requests in which a request that
    raises is reported and the next one is served on the state it left. *)
Inductive registration : Type :=
  | RegisterExtension (board : Board)
  | RegisterLightshow (board : Board).

Definition register (r : registration) : M unit :=
  match r with
  | RegisterExtension board => register_extension_board board
  | RegisterLightshow board => register_lightshow_board board
  end.

Definition register_all (rs : list registration) (p : Platform) : Platform :=
  foldl (fun p r => snd (register r p)) p rs.

(** The extension map is well formed: no address occurs twice, every
    address is one of 0..7, and every board sits under its own address. *)
Definition registry_ok (p : Platform) : Prop :=
  NoDup (map fst (pkone_extensions p))
  /\ Forall (fun entry => 0 <= fst entry < 8 /\ address_id (snd entry) = fst entry)
       (pkone_extensions p).

(** No board has a negative switch or coil count. *)
Definition counts_ok (boards : list Board) : Prop :=
  Forall (fun b => 0 <= switch_count b /\ 0 <= coil_count b) boards.

(** The platform after one more switch change was handed on. *)
Definition after_switch (num : PKONESwitchNumber) (state : Z) (p : Platform) : Platform :=
  snd (process_switch_by_num state num p).

(** A snapshot segment that is just one decimal digit: a board address
    with no switch states after it. *)
Definition bare_board (segment : string) : Prop :=
  exists c d, segment = String c EmptyString /\ Py.digit c = Some d.

(** The failure is an [AssertionError], whichever message it carries. *)
Definition assertion_failure (f : failure) : Prop :=
  match f with
  | Inner (AssertionError _) | NoConnection | NumberRequired | CouldNotParse => True
  | Inner _ | AttributeError => False
  end.

(** A session with a controller connection and a running watchdog, on the
    platform with one board at address 1. *)
Definition live_session : @Session nat nat :=
  mkSession servo_platform (Some 7%nat) [7%nat] (Some 1%nat) [] [].

(** The same platform before any connection exists. *)
Definition offline_session : @Session nat nat :=
  mkSession servo_platform None [] None [] [].

(** * Facts about the model *)

(** ** Dictionaries *)

Lemma get_set_same {V} k (v : V) d : Dict.get k (Dict.set k v d) = Some v.
Proof.
  induction d as [|[k' v'] d IH]; simpl.
  - by rewrite Z.eqb_refl.
  - destruct (Z.eqb k k') eqn:E; simpl; by rewrite E.
Qed.

Lemma get_set_other {V} k k' (v : V) d :
  k <> k' -> Dict.get k' (Dict.set k v d) = Dict.get k' d.
Proof.
  intros Hne. induction d as [|[k0 v0] d IH]; simpl.
  - destruct (Z.eqb_spec k' k); [congruence | done].
  - destruct (Z.eqb_spec k k0) as [->|]; simpl.
    + destruct (Z.eqb_spec k' k0); [congruence | done].
    + by rewrite IH.
Qed.

Lemma mem_set_same {V} k (v : V) d : Dict.mem k (Dict.set k v d) = true.
Proof. unfold Dict.mem. by rewrite get_set_same. Qed.

Lemma set_fresh {V} k (v : V) d :
  Dict.mem k d = false -> Dict.set k v d = (d ++ [(k, v)])%list.
Proof.
  unfold Dict.mem. induction d as [|[k' v'] d IH]; simpl; [done|].
  destruct (Z.eqb k k'); [done|]. intros H. by rewrite IH.
Qed.


(** ** Built-ins on concrete inputs *)

Example split_two : Py.split "-" "12-7" = ["12"; "7"].
Proof. reflexivity. Qed.
Example split_three : Py.split "-" "1--3" = ["1"; ""; "3"].
Proof. reflexivity. Qed.
Example split_trailing : Py.split "X" "1101X2010X" = ["1101"; "2010"; ""].
Proof. reflexivity. Qed.
Example int_plain : Py.int "042" = Ok 42.
Proof. reflexivity. Qed.
Example int_spaces_sign : Py.int " -1_0 " = Ok (-10).
Proof. reflexivity. Qed.
Example int_empty : Py.int "" = Raise ValueError.
Proof. reflexivity. Qed.
Example int_letter : Py.int "E" = Raise ValueError.
Proof. reflexivity. Qed.
Example slice_payload : Py.slice "PSA1101X2010XE" 3 1 = "1101X2010X".
Proof. reflexivity. Qed.
Example str_neg : Py.str (-12) = "-12".
Proof. reflexivity. Qed.
Example half_times_255 :
  Py.int_of_float (Py.fmul (Py.float_of_dyadic 1 (-1)) (Py.float_of_Z 255)) = Ok 127.
Proof. vm_compute. reflexivity. Qed.

(** ** Board registration *)

Lemma register_extension_ok board p :
  Dict.mem (address_id board) (pkone_extensions p) = false ->
  Dict.mem (address_id board) (pkone_lightshows p) = false ->
  0 <= address_id board < 8 ->
  register_extension_board board p =
    (Ok tt, with_extensions
              (Dict.set (address_id board) board (pkone_extensions p)) p).
Proof.
  intros He Hl Hr. unfold register_extension_board, bind, gets, in_range.
  rewrite He, Hl. simpl.
  destruct (Z.leb_spec 0 (address_id board)); [|lia].
  destruct (Z.ltb_spec (address_id board) 8); [|lia].
  reflexivity.
Qed.

Lemma register_duplicate_extension board p :
  Dict.mem (address_id board) (pkone_extensions p)
    || Dict.mem (address_id board) (pkone_lightshows p) = true ->
  register_extension_board board p = (Raise (AssertionError DuplicateAddress), p).
Proof.
  intros H. unfold register_extension_board, bind, gets. by rewrite H.
Qed.

Lemma register_duplicate_lightshow board p :
  Dict.mem (address_id board) (pkone_extensions p)
    || Dict.mem (address_id board) (pkone_lightshows p) = true ->
  register_lightshow_board board p = (Raise (AssertionError DuplicateAddress), p).
Proof.
  intros H. unfold register_lightshow_board, bind, gets. by rewrite H.
Qed.

(** What line 155 does for a fresh lightshow address in range: the board
    lands in the extension map, the lightshow map stays as it was. *)
Lemma register_lightshow_stores_in_extensions board p :
  Dict.mem (address_id board) (pkone_extensions p) = false ->
  Dict.mem (address_id board) (pkone_lightshows p) = false ->
  0 <= address_id board < 4 ->
  register_lightshow_board board p =
    (Ok tt, with_extensions
              (pkone_extensions p ++ [(address_id board, board)])%list p).
Proof.
  intros He Hl Hr. unfold register_lightshow_board, bind, gets, in_range.
  rewrite He, Hl. simpl.
  destruct (Z.leb_spec 0 (address_id board)); [|lia].
  destruct (Z.ltb_spec (address_id board) 4); [|lia].
  simpl. unfold modify. by rewrite set_fresh.
Qed.

(** C1 (the code departs from the claim): registering a lightshow board at
    the free address 0 of a new platform leaves [pkone_lightshows] empty
    and puts the board into [pkone_extensions]. *)
Theorem register_lightshow_board_at_0 :
  let p' := snd (register_lightshow_board (sample_board 0) init) in
  fst (register_lightshow_board (sample_board 0) init) = Ok tt
  /\ pkone_lightshows p' = []
  /\ Dict.get 0 (pkone_lightshows p') = None
  /\ pkone_extensions p' = [(0, sample_board 0)].
Proof. repeat split. Qed.

(** C8: on a new platform an extension board with an address in [[0,8)]
    registers, and a further registration at the same address, as an
    extension board or as a lightshow board, raises the duplicate-address
    error. *)
Theorem extension_address_registers_once (board second : Board) :
  0 <= address_id board < 8 ->
  address_id second = address_id board ->
  exists p',
    register_extension_board board init = (Ok tt, p')
    /\ Dict.get (address_id board) (pkone_extensions p') = Some board
    /\ register_extension_board second p'
       = (Raise (AssertionError DuplicateAddress), p')
    /\ register_lightshow_board second p'
       = (Raise (AssertionError DuplicateAddress), p').
Proof.
  intros Hr Heq.
  eexists. split; [by apply register_extension_ok|].
  assert (Hm : Dict.mem (address_id second)
                 (pkone_extensions
                    (with_extensions
                       (Dict.set (address_id board) board (pkone_extensions init)) init))
               || Dict.mem (address_id second)
                    (pkone_lightshows
                       (with_extensions
                          (Dict.set (address_id board) board (pkone_extensions init)) init))
               = true).
  { rewrite Heq. simpl. unfold Dict.mem at 1. simpl. by rewrite Z.eqb_refl. }
  split; [|split].
  - simpl. by rewrite Z.eqb_refl.
  - by apply register_duplicate_extension.
  - by apply register_duplicate_lightshow.
Qed.

Lemma extension_address_registers_once_witness :
  0 <= address_id (sample_board 3) < 8
  /\ address_id (mkBoard 3 0 0 0 "2.1" "B") = address_id (sample_board 3)
  /\ exists p',
    register_extension_board (sample_board 3) init = (Ok tt, p')
    /\ Dict.get 3 (pkone_extensions p') = Some (sample_board 3)
    /\ register_extension_board (mkBoard 3 0 0 0 "2.1" "B") p'
       = (Raise (AssertionError DuplicateAddress), p')
    /\ register_lightshow_board (mkBoard 3 0 0 0 "2.1" "B") p'
       = (Raise (AssertionError DuplicateAddress), p').
Proof.
  split; [simpl; lia|]. split; [reflexivity|].
  apply (extension_address_registers_once (sample_board 3) (mkBoard 3 0 0 0 "2.1" "B"));
    [simpl; lia | reflexivity].
Defined.

(** C9: a registration that raises leaves the platform, and so both board
    maps, exactly as before the call; the error is one of the two
    registration errors. *)
Theorem registration_atomic_on_error (board : Board) (p p' : Platform) (e : exn) :
  register_extension_board board p = (Raise e, p')
  \/ register_lightshow_board board p = (Raise e, p') ->
  pkone_extensions p' = pkone_extensions p
  /\ pkone_lightshows p' = pkone_lightshows p
  /\ p' = p
  /\ (e = AssertionError DuplicateAddress \/ e = AssertionError AddressOutOfRange).
Proof.
  unfold register_extension_board, register_lightshow_board, bind, gets, modify, raise.
  intros [H|H];
    destruct (Dict.mem (address_id board) (pkone_extensions p)
              || Dict.mem (address_id board) (pkone_lightshows p));
    try (destruct (negb (in_range _ (address_id board))));
    inversion H; subst; auto.
Qed.

Lemma registration_atomic_on_error_witness :
  (register_extension_board (sample_board 8) init
     = (Raise (AssertionError AddressOutOfRange), init)
   \/ register_lightshow_board (sample_board 8) init
     = (Raise (AssertionError AddressOutOfRange), init))
  /\ pkone_extensions init = pkone_extensions init
  /\ pkone_lightshows init = pkone_lightshows init
  /\ init = init
  /\ (AssertionError AddressOutOfRange = AssertionError DuplicateAddress
      \/ AssertionError AddressOutOfRange = AssertionError AddressOutOfRange).
Proof.
  assert (H : register_extension_board (sample_board 8) init
                = (Raise (AssertionError AddressOutOfRange), init)
              \/ register_lightshow_board (sample_board 8) init
                = (Raise (AssertionError AddressOutOfRange), init))
    by (left; reflexivity).
  split; [exact H|].
  exact (registration_atomic_on_error (sample_board 8) init init
           (AssertionError AddressOutOfRange) H).
Defined.

(** ** Same-board check *)

Lemma check_boards_true_iff boards sb cb sn cn :
  check_boards boards sb cb sn cn = true <->
  exists (i : nat) (b : Board),
    boards !! i = Some b
    /\ sb + total switch_count (take i boards) <= sn
       < sb + total switch_count (take i boards) + switch_count b
    /\ cb + total coil_count (take i boards) <= cn
       < cb + total coil_count (take i boards) + coil_count b.
Proof.
  revert sb cb. induction boards as [|b0 rest IH]; intros sb cb; simpl.
  - split; [discriminate|]. intros (i & b & Hi & _). by destruct i.
  - destruct ((sb <=? sn) && (sn <? sb + switch_count b0)
              && (cb <=? cn) && (cn <? cb + coil_count b0)) eqn:Hhere.
    + split; [intros _|done].
      exists 0%nat, b0. simpl.
      repeat (apply andb_prop in Hhere as [Hhere ?]).
      repeat split; lia.
    + rewrite IH. split.
      * intros (i & b & Hi & Hs & Hc). exists (S i), b. simpl.
        repeat split; try done; lia.
      * intros ([|i] & b & Hi & Hs & Hc); simpl in *.
        -- injection Hi as <-.
           assert ((sb <=? sn) && (sn <? sb + switch_count b0)
                   && (cb <=? cn) && (cn <? cb + coil_count b0) = true)
             by (repeat (apply andb_true_intro; split); lia).
           congruence.
        -- exists i, b. repeat split; try done; lia.
Qed.


(** The walk follows registration order (5, then 2): switch 9 and coil 5
    meet on the second step, switch 9 and coil 1 fall on different steps. *)
Example check_same_step :
  _check_switch_coil_combination 9 5 two_boards = (Ok tt, two_boards).
Proof. reflexivity. Qed.

Example check_different_steps :
  _check_switch_coil_combination 9 1 two_boards
  = (Raise (AssertionError CrossBoardMismatch), two_boards).
Proof. reflexivity. Qed.

Example two_boards_by_registration :
  snd (register_extension_board (mkBoard 2 4 8 0 "1" "A")
         (snd (register_extension_board (mkBoard 5 4 8 0 "1" "A") init)))
  = two_boards.
Proof. reflexivity. Qed.

(** ** Printing and reading back decimal numbers *)

Lemma digit_pretty_N_char (x : N) :
  (x < 10)%N -> Py.digit (pretty_N_char x) = Some (Z.of_N x).
Proof.
  intros Hx.
  assert (x = 0 \/ x = 1 \/ x = 2 \/ x = 3 \/ x = 4 \/ x = 5 \/ x = 6
          \/ x = 7 \/ x = 8 \/ x = 9)%N as H by lia.
  repeat (destruct H as [->|H]; [reflexivity|]). by subst.
Qed.

Lemma plain_pretty_N_go (x : N) (s : string) :
  plain s = true -> plain (pretty_N_go x s) = true.
Proof.
  revert s. induction (N.lt_wf_0 x) as [x _ IH]. intros s Hs.
  destruct (decide (x = 0)%N) as [->|Hx]; [by rewrite pretty_N_go_0|].
  rewrite pretty_N_go_step by lia.
  apply IH; [apply N.div_lt; lia|].
  simpl. rewrite digit_pretty_N_char; [done|].
  apply N.mod_lt. lia.
Qed.

Lemma digits_pretty_N_go (x : N) (prev : bool) (s : string) :
  Py.digits 0 prev (pretty_N_go x s)
  = Py.digits (Z.of_N x) (prev || (0 <? x)%N) s.
Proof.
  revert s. induction (N.lt_wf_0 x) as [x _ IH]. intros s.
  destruct (decide (x = 0)%N) as [->|Hx].
  { rewrite pretty_N_go_0. simpl. by rewrite orb_false_r. }
  rewrite pretty_N_go_step by lia.
  rewrite IH by (apply N.div_lt; lia).
  simpl. rewrite digit_pretty_N_char by (apply N.mod_lt; lia).
  destruct (N.ltb_spec 0 x); [|lia]. rewrite orb_true_r.
  f_equal. rewrite (N.div_mod x 10) at 3 by lia. lia.
Qed.

Lemma pretty_N_go_nonempty (x : N) (s : string) :
  (0 < x)%N -> pretty_N_go x s <> EmptyString.
Proof.
  revert s. induction (N.lt_wf_0 x) as [x _ IH]. intros s Hx.
  rewrite pretty_N_go_step by done.
  destruct (decide (x `div` 10 = 0)%N) as [->|Hd].
  - by rewrite pretty_N_go_0.
  - apply IH; [apply N.div_lt; lia | by apply N.neq_0_lt_0].
Qed.

Lemma str_plain (n : Z) : 0 <= n -> plain (Py.str n) = true.
Proof.
  intros Hn. unfold Py.str, pretty, pretty_Z. destruct n as [|q|q]; [done| |lia].
  unfold pretty, pretty_positive, pretty, pretty_N.
  destruct (decide (N.pos q = 0)%N); [done|]. by apply plain_pretty_N_go.
Qed.

Lemma str_nonempty (n : Z) : Py.str n <> EmptyString.
Proof.
  unfold Py.str, pretty, pretty_Z. destruct n as [|q|q]; [done| |done].
  unfold pretty, pretty_positive, pretty, pretty_N.
  destruct (decide (N.pos q = 0)%N); [done|]. apply pretty_N_go_nonempty. lia.
Qed.

Lemma digits_str (n : Z) : 0 <= n -> Py.digits 0 false (Py.str n) = Some n.
Proof.
  intros Hn. unfold Py.str, pretty, pretty_Z. destruct n as [|q|q]; [done| |lia].
  unfold pretty, pretty_positive, pretty, pretty_N.
  destruct (decide (N.pos q = 0)%N); [done|].
  by rewrite digits_pretty_N_go.
Qed.

(** A digit is neither white space, nor a sign, nor the separator. *)
Lemma digit_not_space c d : Py.digit c = Some d -> Py.is_space c = false.
Proof.
  unfold Py.digit, Py.is_space.
  destruct (_ && _) eqn:H; [|done]. intros _.
  apply andb_prop in H as [H1 H2].
  apply Z.leb_le in H1. apply Z.leb_le in H2.
  apply orb_false_intro; apply andb_false_intro2; apply Z.leb_gt; lia.
Qed.

Lemma digit_not_char c d (x : ascii) :
  Py.digit c = Some d -> Py.digit x = None -> Ascii.eqb c x = false.
Proof.
  intros Hc Hx. destruct (Ascii.eqb_spec c x) as [->|]; [congruence|done].
Qed.

Lemma plain_lstrip s : plain s = true -> Py.lstrip s = s.
Proof.
  destruct s as [|c r]; [done|]. simpl.
  destruct (Py.digit c) eqn:Hc; [|done]. intros _.
  by rewrite (digit_not_space _ _ Hc).
Qed.

Lemma plain_rstrip s : plain s = true -> Py.rstrip s = s.
Proof.
  induction s as [|c r IH]; [done|]. simpl.
  destruct (Py.digit c) eqn:Hc; [|done]. intros Hr.
  rewrite (IH Hr). destruct r; [|done].
  by rewrite (digit_not_space _ _ Hc).
Qed.

(** Reading back what [str] printed. *)
Lemma int_str (n : Z) : 0 <= n -> Py.int (Py.str n) = Ok n.
Proof.
  intros Hn. pose proof (str_plain n Hn) as Hp.
  pose proof (digits_str n Hn) as Hd.
  unfold Py.int, Py.strip. rewrite (plain_lstrip _ Hp), (plain_rstrip _ Hp).
  destruct (Py.str n) as [|c r] eqn:Hs; [by destruct (str_nonempty n)|].
  simpl in Hp. destruct (Py.digit c) eqn:Hc; [|done].
  pose proof (digit_not_char c z "-"%char Hc eq_refl) as Hm.
  pose proof (digit_not_char c z "+"%char Hc eq_refl) as Hpl.
  assert (c <> "-"%char) by (intros ->; discriminate).
  assert (c <> "+"%char) by (intros ->; discriminate).
  destruct c as [[] [] [] [] [] [] [] []]; try done; by rewrite Hd.
Qed.

Lemma split_plain sep s :
  Py.digit sep = None -> plain s = true -> Py.split sep s = [s].
Proof.
  intros Hsep. induction s as [|c r IH]; [done|]. simpl.
  destruct (Py.digit c) eqn:Hc; [|done]. intros Hr.
  rewrite (digit_not_char _ _ _ Hc Hsep). by rewrite (IH Hr).
Qed.

Lemma split_plain_app sep a b :
  Py.digit sep = None -> plain a = true ->
  Py.split sep (a +:+ String sep b) = a :: Py.split sep b.
Proof.
  intros Hsep. induction a as [|c r IH]; simpl.
  - intros _. by rewrite Ascii.eqb_refl.
  - destruct (Py.digit c) eqn:Hc; [|done]. intros Hr.
    rewrite (digit_not_char _ _ _ Hc Hsep). by rewrite (IH Hr).
Qed.

Lemma split_number_text (board index : Z) :
  0 <= board -> 0 <= index ->
  split_number (number_text board index) = Ok (Py.str board, Py.str index).
Proof.
  intros Hb Hi. unfold split_number, number_text.
  change ("-" +:+ Py.str index) with (String "-" (Py.str index)).
  rewrite split_plain_app by (done || by apply str_plain).
  by rewrite split_plain by (done || by apply str_plain).
Qed.

(** The three parsers on the text of a non-negative board and index. *)
Lemma parse_servo_number_text (board_id index : Z) (board : Board) (p : Platform) :
  0 <= board_id -> 0 <= index ->
  Dict.get board_id (pkone_extensions p) = Some board ->
  _parse_servo_number (number_text board_id index) p
  = if servo_count board <=? index - coil_count board
    then (Raise (AssertionError IndexOutOfRange), p)
    else (Ok (mkServoNumber board_id index), p).
Proof.
  intros Hb Hi Hg.
  unfold _parse_servo_number, bind, lift, gets.
  rewrite split_number_text by done. simpl.
  rewrite !int_str by done. rewrite Hg.
  by destruct (servo_count board <=? index - coil_count board).
Qed.



(** A servo number below the board's coil count is always accepted when
    the board has at least one servo: the missing lower bound, for every
    board and index. *)
Lemma parse_servo_number_below_coils (board_id index : Z) (board : Board) (p : Platform) :
  0 <= board_id -> 0 <= index < coil_count board -> 0 <= servo_count board ->
  Dict.get board_id (pkone_extensions p) = Some board ->
  _parse_servo_number (number_text board_id index) p
  = (Ok (mkServoNumber board_id index), p).
Proof.
  intros Hb Hi Hs Hg. rewrite (parse_servo_number_text _ _ board) by (done || lia).
  destruct (Z.leb_spec (servo_count board) (index - coil_count board)); [lia|done].
Qed.

(** ** Number parsing *)

(** The servo parser, read off its two integer fields: the only bound it
    checks is the upper one. *)
Lemma parse_servo_number_fields number a b board_id servo_num board p :
  split_number number = Ok (a, b) ->
  Py.int a = Ok board_id ->
  Py.int b = Ok servo_num ->
  Dict.get board_id (pkone_extensions p) = Some board ->
  _parse_servo_number number p =
    if servo_count board <=? servo_num - coil_count board
    then (Raise (AssertionError IndexOutOfRange), p)
    else (Ok (mkServoNumber board_id servo_num), p).
Proof.
  intros Hs Ha Hb Hg. unfold _parse_servo_number, bind, lift, gets.
  rewrite Hs. simpl. rewrite Ha, Hb, Hg.
  by destruct (servo_count board <=? servo_num - coil_count board).
Qed.

Lemma parse_servo_number_unknown_board number a b board_id servo_num p :
  split_number number = Ok (a, b) ->
  Py.int a = Ok board_id ->
  Py.int b = Ok servo_num ->
  Dict.get board_id (pkone_extensions p) = None ->
  _parse_servo_number number p = (Raise (AssertionError UnknownBoard), p).
Proof.
  intros Hs Ha Hb Hg. unfold _parse_servo_number, bind, lift, gets.
  rewrite Hs. simpl. by rewrite Ha, Hb, Hg.
Qed.

(** C3 (the code departs from the claim): on a board with 4 coils and 2
    servos the servo parser accepts raw index 3, a coil slot, and returns
    it as a servo number; raw index 4 is accepted and kept as 4, raw index
    6 is refused as out of range. *)
Theorem parse_servo_number_accepts_coil_slot :
  _parse_servo_number "1-3" servo_platform
    = (Ok (mkServoNumber 1 3), servo_platform)
  /\ _parse_servo_number "1-4" servo_platform
    = (Ok (mkServoNumber 1 4), servo_platform)
  /\ _parse_servo_number "1-6" servo_platform
    = (Raise (AssertionError IndexOutOfRange), servo_platform).
Proof. repeat split. Qed.

Example parse_servo_negative_index_is_invalid :
  _parse_servo_number "1--1" servo_platform
  = (Raise (AssertionError InvalidFormat), servo_platform).
Proof. reflexivity. Qed.

Example parse_servo_non_integer :
  _parse_servo_number "1-x" servo_platform = (Raise ValueError, servo_platform).
Proof. reflexivity. Qed.

Example parse_coil_bounds :
  _parse_coil_number "1-3" servo_platform = (Ok (mkCoilNumber 1 3), servo_platform)
  /\ _parse_coil_number "1-4" servo_platform
     = (Raise (AssertionError IndexOutOfRange), servo_platform)
  /\ _parse_coil_number "2-0" servo_platform
     = (Raise (AssertionError UnknownBoard), servo_platform).
Proof. repeat split. Qed.

Example parse_switch_bounds :
  _parse_switch_number "1-7" servo_platform = (Ok (mkSwitchNumber 1 7), servo_platform)
  /\ _parse_switch_number "1-8" servo_platform
     = (Raise (AssertionError IndexOutOfRange), servo_platform).
Proof. repeat split. Qed.

(** ** Hardware rules *)

(** C7: whatever the enable switch, the end-of-stroke switch, the coil and
    the repulse settings are, asking for the pulse-on-hit, enable, release
    and disable rule raises the not-implemented error, and the platform,
    with everything it has sent so far, is as before. *)
Theorem single_wound_eos_rule_unsupported
    {Driver SwitchSettings PulseSettings HoldSettings RepulseSettings : Type}
    (enable_switch eos_switch : SwitchSettings)
    (coil : @DriverSettings Driver PulseSettings HoldSettings)
    (repulse_settings : option RepulseSettings) (p : Platform) :
  set_pulse_on_hit_and_enable_and_release_and_disable_rule
    enable_switch eos_switch coil repulse_settings p
  = (Raise (AssertionError UnsupportedHardwareFeature), p)
  /\ sent (snd (set_pulse_on_hit_and_enable_and_release_and_disable_rule
                  enable_switch eos_switch coil repulse_settings p)) = sent p.
Proof. split; reflexivity. Qed.

(** The five supported rules hand the request to the driver; the sixth
    raises before any driver call. *)
Example supported_rule_reaches_driver :
  set_pulse_on_hit_and_release_and_disable_rule logging_rule tt tt plain_coil
    (None : option unit) init
  = (Ok tt, after_send "rule 5" init).
Proof. reflexivity. Qed.

Example unsupported_rule_sends_nothing :
  set_pulse_on_hit_and_enable_and_release_and_disable_rule tt tt plain_coil
    (None : option unit) init
  = (Raise (AssertionError UnsupportedHardwareFeature), init).
Proof. reflexivity. Qed.

(** ** Switch state frames *)

Lemma switch_key_inj extension_id a b :
  switch_key extension_id a = switch_key extension_id b -> a = b.
Proof.
  unfold switch_key, Py.str. intros H.
  apply (inj (String.app _)) in H. apply (inj (String.app _)) in H.
  by apply (inj pretty) in H.
Qed.

Lemma switch_key_pair_inj (b1 i1 b2 i2 : Z) :
  0 <= b1 -> 0 <= i1 -> 0 <= b2 -> 0 <= i2 ->
  switch_key b1 i1 = switch_key b2 i2 -> b1 = b2 /\ i1 = i2.
Proof.
  intros Hb1 Hi1 Hb2 Hi2 Heq.
  pose proof (split_number_text b1 i1 Hb1 Hi1) as H1.
  pose proof (split_number_text b2 i2 Hb2 Hi2) as H2.
  change (number_text b1 i1) with (switch_key b1 i1) in H1.
  change (number_text b2 i2) with (switch_key b2 i2) in H2.
  rewrite Heq, H2 in H1. injection H1 as Hb Hi.
  split; symmetry; by apply (inj pretty).
Qed.

Section InnerLoop.

Variables (extension_id : Z) (switch_state_array : list Z).

Let body (hw : gmap string Z) (index : nat) : gmap string Z :=
  match switch_state_array !! index with
  | Some state => <[switch_key extension_id (Z.of_nat index + 1) := state]> hw
  | None => hw
  end.

Lemma store_loop_written indices hw (p : nat) state :
  p ∈ indices ->
  switch_state_array !! p = Some state ->
  foldl body hw indices !! switch_key extension_id (Z.of_nat p + 1) = Some state.
Proof.
  intros Hin Hp. revert Hin.
  induction indices as [|i indices IH] using rev_ind; [by intros ?%elem_of_nil|].
  rewrite foldl_app. simpl. intros Hin.
  destruct (decide (i = p)) as [->|Hne].
  - unfold body at 1. rewrite Hp. apply lookup_insert_eq.
  - assert (p ∈ indices) as Hin'.
    { apply elem_of_app in Hin as [?|Hl]; [done|].
      apply list_elem_of_singleton in Hl. congruence. }
    unfold body at 1. destruct (switch_state_array !! i); [|by apply IH].
    rewrite lookup_insert_ne; [by apply IH|].
    intros Heq%switch_key_inj. lia.
Qed.

Lemma store_loop_untouched indices hw key :
  (forall i : nat, i ∈ indices -> key <> switch_key extension_id (Z.of_nat i + 1)) ->
  foldl body hw indices !! key = hw !! key.
Proof.
  induction indices as [|i indices IH] using rev_ind; [done|].
  intros Hk. rewrite foldl_app. simpl.
  assert (foldl body hw indices !! key = hw !! key) as IH'.
  { apply IH. intros j Hj. apply Hk, elem_of_app. by left. }
  unfold body at 1. destruct (switch_state_array !! i); [|done].
  rewrite lookup_insert_ne; [done|].
  intros Heq. apply (Hk i); [|done]. apply elem_of_app. right. by apply list_elem_of_singleton.
Qed.

End InnerLoop.



(** The entries of another board are left alone. *)
Lemma store_switch_states_other_board
    (extension_id other index : Z) (switch_state_array : list Z)
    (hw_states : gmap string Z) :
  0 <= extension_id -> 0 <= other -> 0 <= index -> extension_id <> other ->
  store_switch_states extension_id switch_state_array hw_states
    !! switch_key other index
  = hw_states !! switch_key other index.
Proof.
  intros He Ho Hi Hne. unfold store_switch_states.
  apply store_loop_untouched. intros i _ Heq.
  apply switch_key_pair_inj in Heq as [? _]; lia.
Qed.

Example store_three_states :
  store_switch_states 1 [49; 48; 49] ∅
  = <["1-3" := 49]> (<["1-2" := 48]> (<["1-1" := 49]> ∅)).
Proof. reflexivity. Qed.

(** The outer loop gets past a segment only when it has no state
    characters, so a snapshot that decodes at all decodes to the empty
    map. *)
Lemma decode_segments_keeps segments hw hw' :
  decode_segments segments hw = Ok hw' -> hw' = hw.
Proof.
  revert hw. induction segments as [|seg rest IH]; intros hw; simpl.
  - by intros [= ->].
  - destruct (Py.index seg 0) as [c|]; [simpl|done].
    destruct (Py.int (Py.char c)) as [ext|]; [simpl|done].
    destruct (Py.slice_from seg 1); [simpl|done].
    intros H. by apply IH in H.
Qed.

Lemma decode_all_switches_empty msg hw :
  decode_all_switches msg = Ok hw -> hw = ∅.
Proof. apply decode_segments_keeps. Qed.


(** C6, counterexample: with no board registered at all, a single-change
    frame naming board 3 is decoded and its switch change is passed on;
    nothing is raised. *)
Lemma unregistered_board_frame_decoded :
  Dict.mem 3 (pkone_extensions init) = false
  /\ Dict.mem 3 (pkone_lightshows init) = false
  /\ fst (receive_switch "PSW03511" init) = Ok tt
  /\ processed_switches (snd (receive_switch "PSW03511" init))
     = [(mkSwitchNumber 3 5, 1)]
  /\ receive_all_switches "PSA7E" init
     = (Ok tt, with_hw_switch_data (Some ∅) init).
Proof. repeat split. Qed.

(** The built-ins raise their own exceptions, never an assertion error. *)
Lemma rbind_no_assertion {A B} (r : result A) (k : A -> result B) :
  ~ raises_assertion r ->
  (forall x, ~ raises_assertion (k x)) ->
  ~ raises_assertion (rbind r k).
Proof.
  intros Hr Hk. destruct r as [x|e]; simpl; [apply Hk|].
  intros [a [= ->]]. apply Hr. by exists a.
Qed.

Lemma int_no_assertion s : ~ raises_assertion (Py.int s).
Proof.
  intros [a H]. revert H. unfold Py.int.
  destruct (Py.strip s) as [|c r]; simpl.
  - discriminate.
  - repeat match goal with
           | |- context [match ?x with _ => _ end] => destruct x
           end; discriminate.
Qed.

Lemma index_no_assertion s i : ~ raises_assertion (Py.index s i).
Proof. intros [a H]. revert H. unfold Py.index. by destruct (String.get i s). Qed.

Lemma last_no_assertion s : ~ raises_assertion (Py.last s).
Proof.
  destruct s; [by intros [a H]|]. apply index_no_assertion.
Qed.

Lemma bytearray_extend_no_assertion b s :
  ~ raises_assertion (Py.bytearray_extend b s).
Proof. intros [a H]. by destruct s. Qed.

Lemma decode_segments_no_assertion segs hw :
  ~ raises_assertion (decode_segments segs hw).
Proof.
  revert hw. induction segs as [|seg rest IH]; intros hw; [by intros [a H]|].
  cbn [decode_segments].
  apply rbind_no_assertion; [apply index_no_assertion|]. intros c.
  apply rbind_no_assertion; [apply int_no_assertion|]. intros ext.
  apply rbind_no_assertion; [apply bytearray_extend_no_assertion|]. intros arr.
  apply IH.
Qed.

(** C6, as the code has it: neither frame decoder looks at the board maps.
    Its outcome is the same whatever is registered, the maps pass through
    unchanged, and no assertion error, unknown board included, comes out
    of it. *)
Theorem frame_decoding_ignores_registry
    (msg : string) (exts lights : Dict.t Board) (p : Platform) :
  receive_switch msg (with_extensions exts (with_lightshows lights p))
    = (fst (receive_switch msg p),
       with_extensions exts (with_lightshows lights (snd (receive_switch msg p))))
  /\ receive_all_switches msg (with_extensions exts (with_lightshows lights p))
    = (fst (receive_all_switches msg p),
       with_extensions exts (with_lightshows lights (snd (receive_all_switches msg p))))
  /\ ~ raises_assertion (fst (receive_switch msg p))
  /\ ~ raises_assertion (fst (receive_all_switches msg p)).
Proof.
  pose proof (rbind_no_assertion _ _ (index_no_assertion msg 4)
                (fun c => int_no_assertion (Py.char c))) as H1.
  pose proof (int_no_assertion (Py.slice msg 5 2)) as H2.
  pose proof (rbind_no_assertion _ _ (last_no_assertion msg)
                (fun c => int_no_assertion (Py.char c))) as H3.
  pose proof (decode_segments_no_assertion (Py.split "X" (Py.slice msg 3 1)) ∅) as H4.
  fold (decode_all_switches msg) in H4.
  unfold receive_switch, receive_all_switches, bind, lift, process_switch_by_num, modify.
  split; [|split; [|split]].
  - destruct (let? c := Py.index msg 4 in Py.int (Py.char c)); [|done].
    destruct (Py.int (Py.slice msg 5 2)); [|done].
    by destruct (let? c := Py.last msg in Py.int (Py.char c)).
  - by destruct (decode_all_switches msg).
  - destruct (let? c := Py.index msg 4 in Py.int (Py.char c)) as [board|e1];
      [|intros [a [= ->]]; apply H1; by exists a].
    destruct (Py.int (Py.slice msg 5 2)) as [number|e2];
      [|intros [a [= ->]]; apply H2; by exists a].
    destruct (let? c := Py.last msg in Py.int (Py.char c)) as [state|e3];
      [|intros [a [= ->]]; apply H3; by exists a].
    by intros [a [=]].
  - destruct (decode_all_switches msg) as [hw|e]; simpl; [by intros [a [=]]|].
    intros [a [= ->]]. apply H4. by exists a.
Qed.

Example unregistered_and_registered_alike :
  fst (receive_switch "PSW03511" (with_extensions [(3, sample_board 3)] init))
  = fst (receive_switch "PSW03511" init).
Proof. reflexivity. Qed.

Example documented_switch_frame_raises :
  receive_switch "PSW1051E" init = (Raise ValueError, init).
Proof. reflexivity. Qed.

Lemma receive_all_switches_ok msg hw p :
  decode_all_switches msg = Ok hw ->
  receive_all_switches msg p = (Ok tt, with_hw_switch_data (Some hw) p).
Proof. intros H. unfold receive_all_switches, bind, lift. by rewrite H. Qed.

Lemma receive_all_switches_raise msg e p :
  decode_all_switches msg = Raise e ->
  receive_all_switches msg p = (Raise e, p).
Proof. intros H. unfold receive_all_switches, bind, lift. by rewrite H. Qed.

Lemma receive_frames_snoc msgs msg p :
  receive_frames (msgs ++ [msg]) p
  = snd (receive_all_switches msg (receive_frames msgs p)).
Proof. unfold receive_frames. by rewrite foldl_app. Qed.

(** C10: on a new platform [get_hw_switch_states] returns [None], and it
    keeps doing so while no snapshot frame has been decoded; after a run
    of snapshot frames it returns the map decoded from the last one,
    whatever was stored before (a last frame that raised leaves the
    stored value as it was). *)
Theorem get_hw_switch_states_latest_snapshot :
  get_hw_switch_states init = (Ok None, init)
  /\ (forall msgs : list string,
        Forall (fun msg => forall hw, decode_all_switches msg <> Ok hw) msgs ->
        fst (get_hw_switch_states (receive_frames msgs init)) = Ok None)
  /\ (forall (earlier : list string) (msg : string) (p : Platform),
        fst (get_hw_switch_states (receive_frames (earlier ++ [msg]) p))
        = Ok (match decode_all_switches msg with
              | Ok hw_states => Some hw_states
              | Raise _ => hw_switch_data (receive_frames earlier p)
              end)).
Proof.
  split; [reflexivity|]. split.
  - intros msgs Hall. unfold get_hw_switch_states, gets. simpl. f_equal.
    induction msgs as [|msg msgs IH] using rev_ind; [done|].
    rewrite Forall_app, Forall_singleton in Hall. destruct Hall as [Hmsgs Hmsg].
    rewrite receive_frames_snoc.
    destruct (decode_all_switches msg) as [hw|e] eqn:Hd; [by destruct (Hmsg hw)|].
    rewrite (receive_all_switches_raise _ _ _ Hd). by apply IH.
  - intros earlier msg p. unfold get_hw_switch_states, gets. simpl. f_equal.
    rewrite receive_frames_snoc.
    destruct (decode_all_switches msg) as [hw|e] eqn:Hd.
    + by rewrite (receive_all_switches_ok _ _ _ Hd).
    + by rewrite (receive_all_switches_raise _ _ _ Hd).
Qed.

Example snapshot_replaces_earlier_value :
  fst (get_hw_switch_states
         (receive_frames ["PSA1X2E"]
            (with_hw_switch_data (Some (<["9-9" := 1]> ∅)) init)))
  = Ok (Some ∅).
Proof. reflexivity. Qed.

Example failed_snapshot_keeps_value :
  fst (get_hw_switch_states (receive_frames ["PSA1E"; "PSA110X201XE"] init))
  = Ok (Some ∅).
Proof. reflexivity. Qed.

(** ** Servo positions *)

(** [int()] of a finite float drops the fraction: for a negative exponent
    the magnitude [q] of the result is the integer part of [m / 2^(-e)]. *)
Lemma int_of_float_truncates (s : bool) (m : positive) (e : Z) :
  e < 0 ->
  exists q : Z,
    Py.int_of_float (S754_finite s m e) = Ok (if s then - q else q)
    /\ q * 2 ^ (- e) <= Z.pos m < (q + 1) * 2 ^ (- e).
Proof.
  intros He. exists (Z.pos m / 2 ^ (- e)). simpl.
  destruct (Z.leb_spec 0 e); [lia|]. split; [done|].
  assert (0 < 2 ^ (- e)) by (apply Z.pow_pos_nonneg; lia).
  pose proof (Z.mul_div_le (Z.pos m) (2 ^ (- e))).
  pose proof (Z.mul_succ_div_gt (Z.pos m) (2 ^ (- e))).
  nia.
Qed.

Lemma go_to_position_in_range number position n p :
  Py.flt position (Py.float_of_Z 0) || Py.flt (Py.float_of_Z 1) position = false ->
  Py.int_of_float (Py.fmul position (Py.float_of_Z 255)) = Ok n ->
  go_to_position number position p
  = (Ok tt, after_send (servo_command number n) p).
Proof.
  intros Hguard Hn. unfold go_to_position. rewrite Hguard.
  unfold bind, lift. by rewrite Hn.
Qed.

Lemma go_to_position_out_of_range number position p :
  Py.flt position (Py.float_of_Z 0) || Py.flt (Py.float_of_Z 1) position = true ->
  go_to_position number position p
  = (Raise (AssertionError PositionOutOfRange), p).
Proof. intros Hguard. unfold go_to_position. by rewrite Hguard. Qed.

(** ** Rounding of the product [position * 255] *)

Lemma iter_pos_nat {A} (f : A -> A) (p : positive) (x : A) :
  SpecFloat.iter_pos f p x = Nat.iter (Pos.to_nat p) f x.
Proof.
  revert x. induction p as [p IH|p IH|]; intros x; cbn [SpecFloat.iter_pos].
  - rewrite !IH, Pos2Nat.inj_xI, <- Nat.iter_succ_r, <- Nat.iter_add.
    f_equal. lia.
  - rewrite !IH, Pos2Nat.inj_xO, <- Nat.iter_add. f_equal. lia.
  - reflexivity.
Qed.

Lemma shr_1_nonneg (m : Z) (r s : bool) :
  0 <= m ->
  shr_1 (Build_shr_record m r s) = Build_shr_record (m / 2) (Z.odd m) (r || s).
Proof.
  intros Hm. rewrite <- Z.div2_div.
  destruct m as [|[q|q|]|q]; try reflexivity. lia.
Qed.

Lemma shr_1_inv (M k : Z) (mrs : shr_record) :
  0 <= M -> 0 <= k -> shr_inv M k mrs -> shr_inv M (k + 1) (shr_1 mrs).
Proof.
  intros HM Hk [Hm Hrs]. destruct mrs as [m r s].
  cbn [shr_m shr_r shr_s] in Hm, Hrs.
  assert (0 < 2 ^ k) as Hpow by (apply Z.pow_pos_nonneg; lia).
  assert (0 <= m) as Hm0 by (subst m; apply Z.div_pos; lia).
  rewrite shr_1_nonneg by done. unfold shr_inv. cbn [shr_m shr_r shr_s].
  rewrite Z.pow_add_r, Z.pow_1_r by lia.
  split.
  - subst m. rewrite Z.div_div by lia. done.
  - intros Hbits Hzero.
    apply Z.mod_divide in Hzero; [|lia]. destruct Hzero as [t Ht].
    pose proof (Z.div_mod M (2 ^ k) ltac:(lia)) as Hdm.
    pose proof (Z.mod_pos_bound M (2 ^ k) Hpow) as Hbound.
    assert (M mod 2 ^ k = 0 /\ M / 2 ^ k = 2 * t) as [Hr0 Hq].
    { assert (2 ^ k * (M / 2 ^ k - 2 * t) = - (M mod 2 ^ k)) as Heq by lia.
      assert (M / 2 ^ k - 2 * t = 0) by nia. lia. }
    apply orb_prop in Hbits as [Hodd|Hold].
    + rewrite Hm, Hq in Hodd. by rewrite Z.odd_mul in Hodd.
    + by apply Hrs.
Qed.

Lemma shr_iter_inv (M : Z) (n : nat) :
  0 <= M ->
  shr_inv M (Z.of_nat n) (Nat.iter n shr_1 (Build_shr_record M false false)).
Proof.
  intros HM. induction n as [|n IH].
  - split; simpl; [by rewrite Z.div_1_r | done].
  - rewrite Nat2Z.inj_succ. simpl. apply shr_1_inv; [done|lia|done].
Qed.

(** One alignment step on an exact mantissa: the exponent moves up to the
    format's exponent when that is larger, and the mantissa is shifted by
    the difference. *)
Lemma shr_fexp_exact (m e : Z) :
  0 <= m ->
  exists mrs,
    shr_fexp Py.prec Py.emax m e loc_Exact
    = (mrs, Z.max e (fexp Py.prec Py.emax (Zdigits2 m + e)))
    /\ shr_inv m (Z.max e (fexp Py.prec Py.emax (Zdigits2 m + e)) - e) mrs.
Proof.
  intros Hm. unfold shr_fexp, shr. simpl shr_record_of_loc.
  destruct (fexp Py.prec Py.emax (Zdigits2 m + e) - e) as [|q|q] eqn:Hn.
  - eexists. split; [f_equal; lia|].
    replace (Z.max _ _ - e) with 0 by lia. apply (shr_iter_inv m 0 Hm).
  - eexists. split; [f_equal; lia|].
    replace (Z.max _ _ - e) with (Z.of_nat (Pos.to_nat q)) by lia.
    rewrite iter_pos_nat. by apply shr_iter_inv.
  - eexists. split; [f_equal; lia|].
    replace (Z.max _ _ - e) with 0 by lia. apply (shr_iter_inv m 0 Hm).
Qed.

Lemma digits2_pos_lower (q : positive) :
  2 ^ (Z.pos (digits2_pos q) - 1) <= Z.pos q.
Proof.
  induction q as [q IH|q IH|]; simpl; [| |done].
  - rewrite Pos2Z.inj_succ.
    replace (Z.succ (Z.pos (digits2_pos q)) - 1)
      with (Z.succ (Z.pos (digits2_pos q) - 1)) by lia.
    rewrite Z.pow_succ_r by lia. lia.
  - rewrite Pos2Z.inj_succ.
    replace (Z.succ (Z.pos (digits2_pos q)) - 1)
      with (Z.succ (Z.pos (digits2_pos q) - 1)) by lia.
    rewrite Z.pow_succ_r by lia. lia.
Qed.

Lemma digits2_pos_upper (q : positive) :
  Z.pos q < 2 ^ Z.pos (digits2_pos q).
Proof.
  induction q as [q IH|q IH|]; simpl; [| |done].
  - rewrite Pos2Z.inj_succ, Z.pow_succ_r by lia. lia.
  - rewrite Pos2Z.inj_succ, Z.pow_succ_r by lia. lia.
Qed.

Lemma Zdigits2_le (m k : Z) :
  0 <= m -> 0 <= k -> m < 2 ^ k -> Zdigits2 m <= k.
Proof.
  intros Hm Hk Hlt. destruct m as [|q|q]; simpl; [done| |lia].
  pose proof (digits2_pos_lower q) as Hlow.
  destruct (Z.le_gt_cases (Z.pos (digits2_pos q)) k) as [|Hgt]; [done|].
  assert (2 ^ k <= 2 ^ (Z.pos (digits2_pos q) - 1))
    by (apply Z.pow_le_mono_r; lia).
  lia.
Qed.

Lemma shift_bound (m V a k : Z) :
  0 <= k -> 0 <= a -> m <= V * 2 ^ (a + k) -> m / 2 ^ k <= V * 2 ^ a.
Proof.
  intros Hk Ha Hm.
  assert (0 < 2 ^ k) by (apply Z.pow_pos_nonneg; lia).
  rewrite Z.pow_add_r, Z.mul_assoc in Hm by lia.
  apply Z.div_le_upper_bound; lia.
Qed.

Lemma below_power (m V a : Z) :
  0 <= a -> 0 < V < 2 ^ 53 -> m <= V * 2 ^ a -> m < 2 ^ (53 + a).
Proof.
  intros Ha HV Hm.
  assert (0 < 2 ^ a) by (apply Z.pow_pos_nonneg; lia).
  rewrite Z.pow_add_r by lia. nia.
Qed.

Lemma fexp_nonpos (m e V : Z) :
  e <= 0 -> 0 <= m -> 0 < V < 2 ^ 53 -> m <= V * 2 ^ (- e) ->
  Z.max e (fexp Py.prec Py.emax (Zdigits2 m + e)) <= 0.
Proof.
  intros He Hm HV Hle.
  pose proof (below_power m V (- e) ltac:(lia) HV Hle) as Hlt.
  pose proof (Zdigits2_le m (53 + - e) Hm ltac:(lia) Hlt) as Hd.
  unfold fexp, emin, Py.prec, Py.emax. lia.
Qed.

Lemma round_nearest_even_bounds (mrs : shr_record) :
  shr_m mrs
  <= round_nearest_even (shr_m mrs) (loc_of_shr_record mrs)
  <= shr_m mrs + (if shr_r mrs || shr_s mrs then 1 else 0).
Proof.
  destruct mrs as [m [] []]; simpl; try lia.
  destruct (Z.even m); lia.
Qed.

(** Rounding a positive mantissa whose value [M * 2^E] is at most the
    integer [V] gives zero or a positive finite float whose value is still
    at most [V]. *)
Lemma binary_round_aux_bound (M : positive) (E V : Z) :
  E <= 0 -> 0 < V < 2 ^ 53 -> Z.pos M <= V * 2 ^ (- E) ->
  (exists s, binary_round_aux Py.prec Py.emax false (Z.pos M) E loc_Exact = S754_zero s)
  \/ (exists m e,
        binary_round_aux Py.prec Py.emax false (Z.pos M) E loc_Exact
        = S754_finite false m e
        /\ e <= 0 /\ Z.pos m <= V * 2 ^ (- e)).
Proof.
  intros HE HV HM. unfold binary_round_aux.
  destruct (shr_fexp_exact (Z.pos M) E ltac:(lia)) as (mrs1 & -> & Hm1 & Hrs1).
  pose proof (fexp_nonpos (Z.pos M) E V HE ltac:(lia) HV HM) as He1.
  set (e1 := Z.max E (fexp Py.prec Py.emax (Zdigits2 (Z.pos M) + E))) in *.
  assert (E <= e1) as HEe1 by (unfold e1; lia).
  assert (0 < 2 ^ (e1 - E)) as Hpow by (apply Z.pow_pos_nonneg; lia).
  assert (0 <= shr_m mrs1) as Hm1pos by (rewrite Hm1; apply Z.div_pos; lia).
  assert (shr_m mrs1 <= V * 2 ^ (- e1)) as Hm1le.
  { rewrite Hm1. apply shift_bound; [lia|lia|].
    by replace (- e1 + (e1 - E)) with (- E) by lia. }
  set (m2 := round_nearest_even (shr_m mrs1) (loc_of_shr_record mrs1)).
  assert (0 <= m2 <= V * 2 ^ (- e1)) as Hm2.
  { pose proof (round_nearest_even_bounds mrs1) as Hb. fold m2 in Hb.
    split; [lia|].
    destruct (shr_r mrs1 || shr_s mrs1) eqn:Hbits; [|lia].
    specialize (Hrs1 eq_refl).
    assert (shr_m mrs1 <> V * 2 ^ (- e1)); [|lia].
    intros Heq. apply Hrs1.
    pose proof (Z.div_mod (Z.pos M) (2 ^ (e1 - E)) ltac:(lia)) as Hdm.
    pose proof (Z.mod_pos_bound (Z.pos M) (2 ^ (e1 - E)) Hpow) as Hbd.
    rewrite <- Hm1, Heq in Hdm.
    assert (V * 2 ^ (- E) = 2 ^ (e1 - E) * (V * 2 ^ (- e1))) as Hsplit.
    { replace (- E) with (- e1 + (e1 - E)) by lia.
      rewrite Z.pow_add_r by lia. lia. }
    lia. }
  destruct (shr_fexp_exact m2 e1 ltac:(lia)) as (mrs2 & -> & Hm3 & _).
  pose proof (fexp_nonpos m2 e1 V He1 ltac:(lia) HV ltac:(lia)) as He2.
  set (e2 := Z.max e1 (fexp Py.prec Py.emax (Zdigits2 m2 + e1))) in *.
  assert (e1 <= e2) as He12 by (unfold e2; lia).
  assert (0 < 2 ^ (e2 - e1)) as Hpow2 by (apply Z.pow_pos_nonneg; lia).
  assert (0 <= shr_m mrs2) as Hm3pos by (rewrite Hm3; apply Z.div_pos; lia).
  assert (shr_m mrs2 <= V * 2 ^ (- e2)) as Hm3le.
  { rewrite Hm3. apply shift_bound; [lia|lia|].
    replace (- e2 + (e2 - e1)) with (- e1) by lia. lia. }
  destruct (shr_m mrs2) as [|m3|m3]; [left; by eexists| |lia].
  right. exists m3, e2.
  assert ((e2 <=? Py.emax - Py.prec) = true) as ->
    by (apply Z.leb_le; unfold Py.emax, Py.prec; lia).
  done.
Qed.

Lemma float_constants :
  Py.float_of_Z 0 = S754_zero false
  /\ Py.float_of_Z 1 = S754_finite false 4503599627370496 (-52)
  /\ Py.float_of_Z 255 = S754_finite false 8972014882652160 (-45).
Proof. by vm_compute. Qed.

Lemma SFcompare_antisym (x y : Py.float) :
  SFcompare y x = option_map CompOpp (SFcompare x y).
Proof.
  destruct x as [sx|sx| |sx mx ex], y as [sy|sy| |sy my ey];
    try reflexivity; try (by destruct sx); try (by destruct sy);
    try (by destruct sx, sy).
  unfold SFcompare. rewrite !Pos.compare_cont_spec.
  rewrite (Z.compare_antisym ex ey), (Pos.compare_antisym mx my).
  destruct sx, sy, (ex ?= ey), (mx ?= my)%positive; reflexivity.
Qed.

Lemma SFleb_not_SFltb (x y : Py.float) :
  SFleb x y = true -> SFltb y x = false.
Proof.
  unfold SFleb, SFltb. rewrite (SFcompare_antisym x y).
  by destruct (SFcompare x y) as [[]|].
Qed.

Lemma SFleb_finite (m m' : positive) (e e' : Z) :
  SFleb (S754_finite false m e) (S754_finite false m' e') = true ->
  e < e' \/ (e = e' /\ Z.pos m <= Z.pos m').
Proof.
  unfold SFleb, SFcompare. rewrite Pos.compare_cont_spec.
  destruct (Z.compare_spec e e') as [->|Hlt|Hgt]; [|by left|done].
  intros H. right. split; [done|].
  destruct (Pos.compare_spec m m') as [->|Hl|Hg]; simpl in H; [lia|lia|done].
Qed.

(** A float in the unit interval is a zero or a positive finite float of
    value at most one. *)
Lemma unit_interval_shape (position : Py.float) :
  is_float position -> in_unit_interval position ->
  (exists s, position = S754_zero s)
  \/ (exists m e, position = S754_finite false m e
                  /\ e <= -52 /\ Z.pos m <= 2 ^ (- e)).
Proof.
  intros Hvalid [H0 H1].
  destruct float_constants as (E0 & E1 & _). rewrite E0 in H0. rewrite E1 in H1.
  destruct position as [s|s| |s m e].
  - left. by eexists.
  - by destruct s.
  - done.
  - right. destruct s; [done|]. exists m, e. split; [done|].
    apply SFleb_finite in H1.
    unfold is_float, valid_binary, bounded in Hvalid.
    apply andb_prop in Hvalid as [Hcanon _].
    unfold canonical_mantissa, fexp, emin, Py.prec, Py.emax in Hcanon.
    apply Z.eqb_eq in Hcanon.
    assert (Z.pos (digits2_pos m) <= 53) as Hd by lia.
    pose proof (digits2_pos_upper m) as Hup.
    assert (2 ^ Z.pos (digits2_pos m) <= 2 ^ 53) as Hmono
      by (apply Z.pow_le_mono_r; lia).
    destruct H1 as [Hlt|[-> Hle]].
    + split; [lia|].
      assert (2 ^ 53 <= 2 ^ (- e)) by (apply Z.pow_le_mono_r; lia). lia.
    + split; [lia|]. exact Hle.
Qed.

(** For a position in the unit interval the product with 255 converts to
    an integer, and that integer lies between 0 and 255. *)
Lemma position_numeric_range (position : Py.float) :
  is_float position -> in_unit_interval position ->
  exists n : Z,
    Py.int_of_float (Py.fmul position (Py.float_of_Z 255)) = Ok n
    /\ 0 <= n <= 255.
Proof.
  intros Hvalid Hunit.
  destruct float_constants as (_ & _ & E255). rewrite E255.
  destruct (unit_interval_shape position Hvalid Hunit)
    as [[s ->]|(m & e & -> & He & Hm)].
  { exists 0. by split. }
  unfold Py.fmul, SFmul. cbn [xorb].
  destruct (binary_round_aux_bound (m * 8972014882652160) (e + -45) 255)
    as [[s ->]|(m' & e' & -> & He' & Hm')].
  - lia.
  - split; [lia|reflexivity].
  - replace (- (e + -45)) with (- e + 45) by lia.
    rewrite Z.pow_add_r by lia.
    change (2 ^ 45) with 35184372088832.
    rewrite Pos2Z.inj_mul.
    change (Z.pos 8972014882652160) with (255 * 35184372088832).
    assert (0 < 2 ^ (- e)) by (apply Z.pow_pos_nonneg; lia).
    nia.
  - exists 0. by split.
  - assert (0 < 2 ^ (- e')) by (apply Z.pow_pos_nonneg; lia).
    eexists. split; [reflexivity|].
    destruct (Z.leb_spec 0 e').
    + replace e' with 0 in * by lia.
      change (2 ^ (- 0)) with 1 in Hm'. change (2 ^ 0) with 1. lia.
    + split; [apply Z.div_pos; lia|].
      apply Z.div_le_upper_bound; lia.
Qed.

Lemma unit_interval_guard (position : Py.float) :
  in_unit_interval position ->
  Py.flt position (Py.float_of_Z 0) || Py.flt (Py.float_of_Z 1) position = false.
Proof.
  intros [H0 H1]. unfold Py.flt.
  by rewrite (SFleb_not_SFltb _ _ H0), (SFleb_not_SFltb _ _ H1).
Qed.

(** C5, counterexample: for position 0.5 the product 127.5 rounds to 128,
    but the command sent carries 127. *)
Lemma half_position_sends_127 :
  py_round (Py.fmul half (Py.float_of_Z 255)) = Ok 128
  /\ Py.int_of_float (Py.fmul half (Py.float_of_Z 255)) = Ok 127
  /\ sent (snd (go_to_position (mkServoNumber 1 4) half init)) = ["PSC14127"]
  /\ servo_command (mkServoNumber 1 4) 128 = "PSC14128".
Proof. vm_compute. repeat split. Qed.

(** C5, as the code has it: a position below 0 or above 1 raises the
    position error and sends nothing; for every float position from 0 to 1
    the position command is sent and carries [int(position * 255)], the
    product cut down to its integer part, which lies between 0 and 255.
    Position 0.5 gives 127, position 1.0 gives 255, position 1.5 is
    refused. *)
Theorem go_to_position_truncates (number : PKONEServoNumber) (p : Platform) :
  (forall position : Py.float,
     Py.flt position (Py.float_of_Z 0) || Py.flt (Py.float_of_Z 1) position = true ->
     go_to_position number position p
     = (Raise (AssertionError PositionOutOfRange), p))
  /\ (forall position : Py.float,
        is_float position -> in_unit_interval position ->
        exists n : Z,
          0 <= n <= 255
          /\ Py.int_of_float (Py.fmul position (Py.float_of_Z 255)) = Ok n
          /\ go_to_position number position p
             = (Ok tt, after_send (servo_command number n) p))
  /\ go_to_position number half p
     = (Ok tt, after_send (servo_command number 127) p)
  /\ go_to_position number one p
     = (Ok tt, after_send (servo_command number 255) p)
  /\ go_to_position number one_and_half p
     = (Raise (AssertionError PositionOutOfRange), p).
Proof.
  split; [intros; by apply go_to_position_out_of_range|].
  split.
  { intros position Hfloat Hunit.
    destruct (position_numeric_range position Hfloat Hunit) as (n & Hn & Hrange).
    exists n. split; [done|]. split; [done|].
    apply go_to_position_in_range; [by apply unit_interval_guard | done]. }
  split; [|split].
  - apply go_to_position_in_range; by vm_compute.
  - apply go_to_position_in_range; by vm_compute.
  - apply go_to_position_out_of_range. by vm_compute.
Qed.

Example half_in_unit_interval : is_float half /\ in_unit_interval half.
Proof. by vm_compute. Qed.

Example nan_outside_unit_interval : ~ in_unit_interval S754_nan.
Proof. by intros [? ?]. Qed.

Example position_not_a_number :
  go_to_position (mkServoNumber 1 4) S754_nan init = (Raise ValueError, init).
Proof. reflexivity. Qed.

(** * Further properties of the platform code *)

(** ** Number parsing on arbitrary text *)

Lemma length_split (sep : ascii) (s : string) :
  length (Py.split sep s) = S (count_char sep s).
Proof.
  induction s as [|c r IH]; [done|]. simpl.
  destruct (Ascii.eqb c sep); simpl; [by rewrite IH|].
  destruct (Py.split sep r) as [|seg segs]; simpl in *; [lia|done].
Qed.

Lemma split_number_ok_iff (number : string) :
  (exists a b, split_number number = Ok (a, b)) <-> count_char "-" number = 1%nat.
Proof.
  unfold split_number. pose proof (length_split "-" number) as Hlen.
  destruct (Py.split "-" number) as [|a [|b [|c l]]]; simpl in Hlen; split;
    try (intros (? & ? & [=])); try lia; try (intros; lia).
  intros _. by exists a, b.
Qed.

Lemma split_number_invalid (number : string) :
  count_char "-" number <> 1%nat ->
  split_number number = Raise (AssertionError InvalidFormat).
Proof.
  intros Hc. unfold split_number. pose proof (length_split "-" number) as Hlen.
  destruct (Py.split "-" number) as [|a [|b [|c l]]]; simpl in Hlen; try done.
  lia.
Qed.

(** X1: each of the three number parsers reports an invalid number exactly
    when the text does not hold one separator: none, or two and more. *)
Theorem parsers_invalid_format_iff (number : string) (p : Platform) :
  (fst (_parse_coil_number number p) = Raise (AssertionError InvalidFormat)
     <-> count_char "-" number <> 1%nat)
  /\ (fst (_parse_servo_number number p) = Raise (AssertionError InvalidFormat)
     <-> count_char "-" number <> 1%nat)
  /\ (fst (_parse_switch_number number p) = Raise (AssertionError InvalidFormat)
     <-> count_char "-" number <> 1%nat).
Proof.
  assert (Hint : forall s e, Py.int s = Raise e -> e <> AssertionError InvalidFormat).
  { intros s e H ->. apply (int_no_assertion s). by eexists. }
  unfold _parse_coil_number, _parse_servo_number, _parse_switch_number,
    bind, lift, gets, ret, raise.
  destruct (decide (count_char "-" number = 1%nat)) as [Hone|Hne].
  - destruct (proj2 (split_number_ok_iff number) Hone) as (a & b & ->). simpl.
    destruct (Py.int a) as [board_id|ea] eqn:Ha;
      [|apply Hint in Ha; repeat split; intros; simpl in *; congruence].
    destruct (Py.int b) as [index|eb] eqn:Hb;
      [|apply Hint in Hb; repeat split; intros; simpl in *; congruence].
    destruct (Dict.get board_id (pkone_extensions p)) as [board|];
      [|repeat split; intros; simpl in *; (done || congruence)].
    destruct (coil_count board <=? index),
             (servo_count board <=? index - coil_count board),
             (switch_count board <=? index);
      repeat split; intros; simpl in *; (done || congruence).
  - rewrite (split_number_invalid number Hne). simpl. by repeat split.
Qed.

Lemma count_char_lstrip (c : ascii) (s : string) :
  (count_char c (Py.lstrip s) <= count_char c s)%nat.
Proof.
  induction s as [|x r IH]; [done|]. simpl.
  destruct (Py.is_space x); simpl; lia.
Qed.

Lemma count_char_rstrip (c : ascii) (s : string) :
  (count_char c (Py.rstrip s) <= count_char c s)%nat.
Proof.
  induction s as [|x r IH]; [done|]. simpl.
  destruct (Py.rstrip r) as [|y r'] eqn:Hr; simpl in *.
  - destruct (Py.is_space x); simpl; lia.
  - lia.
Qed.

Lemma split_pieces_free (sep : ascii) (s : string) :
  Forall (fun piece => count_char sep piece = 0%nat) (Py.split sep s).
Proof.
  induction s as [|c r IH]; simpl; [by repeat constructor|].
  destruct (Ascii.eqb c sep) eqn:Hc; [by constructor|].
  destruct (Py.split sep r) as [|seg segs]; [repeat constructor; simpl; by rewrite Hc|].
  inversion IH as [|? ? Hseg Hsegs]; subst.
  constructor; [|done]. simpl. by rewrite Hc.
Qed.

Lemma digit_range (c : ascii) (d : Z) : Py.digit c = Some d -> 0 <= d <= 9.
Proof.
  unfold Py.digit. destruct (_ && _) eqn:H; [|done]. intros [= <-].
  apply andb_prop in H as [H1 H2].
  apply Z.leb_le in H1. apply Z.leb_le in H2. lia.
Qed.

Lemma digits_nonneg (s : string) (acc : Z) (prev : bool) (n : Z) :
  0 <= acc -> Py.digits acc prev s = Some n -> 0 <= n.
Proof.
  revert acc prev. induction s as [|c r IH]; intros acc prev Hacc; simpl.
  - destruct prev; [by intros [= <-]|done].
  - destruct (Py.digit c) as [d|] eqn:Hd.
    + apply IH. apply digit_range in Hd. lia.
    + destruct (Ascii.eqb c "_" && prev); [by apply IH|done].
Qed.

(** A text without a minus sign never reads as a negative integer. *)
Lemma int_nonneg (s : string) (n : Z) :
  count_char "-" s = 0%nat -> Py.int s = Ok n -> 0 <= n.
Proof.
  intros Hfree. unfold Py.int, Py.strip.
  pose proof (count_char_rstrip "-" (Py.lstrip s)) as H1.
  pose proof (count_char_lstrip "-" s) as H2.
  destruct (Py.rstrip (Py.lstrip s)) as [|c r] eqn:Hs; [done|].
  assert (Ascii.eqb c "-" = false) as Hc.
  { simpl in H1. destruct (Ascii.eqb c "-"); [lia|done]. }
  assert (forall t, match Py.digits 0 false t with
                    | Some n => Ok n
                    | None => Raise ValueError
                    end = Ok n -> 0 <= n) as Hbody.
  { intros t. destruct (Py.digits 0 false t) as [k|] eqn:Hk; [|done].
    intros [= <-]. by apply (digits_nonneg t 0 false). }
  destruct c as [[] [] [] [] [] [] [] []]; try discriminate Hc; apply Hbody.
Qed.

Lemma split_number_fields_free (number a b : string) :
  split_number number = Ok (a, b) ->
  count_char "-" a = 0%nat /\ count_char "-" b = 0%nat.
Proof.
  unfold split_number. pose proof (split_pieces_free "-" number) as Hfree.
  destruct (Py.split "-" number) as [|x [|y [|z l]]]; try done.
  intros [= -> ->].
  inversion Hfree as [|? ? Ha Hrest]; subst.
  by inversion Hrest.
Qed.

(** X2: whatever text it is given, a coil number the parser returns names
    a registered extension board and an index from 0 up to, not
    including, that board's coil count. *)
Theorem parse_coil_number_sound (number : string) (p p' : Platform) (n : PKONECoilNumber) :
  _parse_coil_number number p = (Ok n, p') ->
  exists board,
    Dict.get (coil_board_address_id n) (pkone_extensions p) = Some board
    /\ 0 <= coil_board_address_id n
    /\ 0 <= coil_number n < coil_count board.
Proof.
  unfold _parse_coil_number, bind, lift, gets, ret, raise.
  destruct (split_number number) as [[a b]|] eqn:Hs; [simpl|done].
  apply split_number_fields_free in Hs as [Ha Hb].
  destruct (Py.int a) as [board_id|] eqn:Hia; [|done].
  destruct (Py.int b) as [index|] eqn:Hib; [|done].
  apply (int_nonneg a _ Ha) in Hia. apply (int_nonneg b _ Hb) in Hib.
  destruct (Dict.get board_id (pkone_extensions p)) as [board|] eqn:Hg; [|done].
  destruct (Z.leb_spec (coil_count board) index); [done|].
  intros [= <- <-]. exists board. simpl. repeat split; (done || lia).
Qed.

Lemma parse_coil_number_sound_witness :
  _parse_coil_number " 1 -0_3" servo_platform
    = (Ok (mkCoilNumber 1 3), servo_platform)
  /\ exists board,
       Dict.get 1 (pkone_extensions servo_platform) = Some board
       /\ 0 <= 1 /\ 0 <= 3 < coil_count board.
Proof.
  split; [reflexivity|].
  exact (parse_coil_number_sound " 1 -0_3" servo_platform servo_platform
           (mkCoilNumber 1 3) eq_refl).
Defined.

(** X3: whatever text it is given, a switch number the parser returns
    names a registered extension board and an index from 0 up to, not
    including, that board's switch count. *)
Theorem parse_switch_number_sound (number : string) (p p' : Platform)
    (n : PKONESwitchNumber) :
  _parse_switch_number number p = (Ok n, p') ->
  exists board,
    Dict.get (sw_board_address_id n) (pkone_extensions p) = Some board
    /\ 0 <= sw_board_address_id n
    /\ 0 <= switch_number n < switch_count board.
Proof.
  unfold _parse_switch_number, bind, lift, gets, ret, raise.
  destruct (split_number number) as [[a b]|] eqn:Hs; [simpl|done].
  apply split_number_fields_free in Hs as [Ha Hb].
  destruct (Py.int a) as [board_id|] eqn:Hia; [|done].
  destruct (Py.int b) as [index|] eqn:Hib; [|done].
  apply (int_nonneg a _ Ha) in Hia. apply (int_nonneg b _ Hb) in Hib.
  destruct (Dict.get board_id (pkone_extensions p)) as [board|] eqn:Hg; [|done].
  destruct (Z.leb_spec (switch_count board) index); [done|].
  intros [= <- <-]. exists board. simpl. repeat split; (done || lia).
Qed.

Lemma parse_switch_number_sound_witness :
  _parse_switch_number "1-7" servo_platform
    = (Ok (mkSwitchNumber 1 7), servo_platform)
  /\ exists board,
       Dict.get 1 (pkone_extensions servo_platform) = Some board
       /\ 0 <= 1 /\ 0 <= 7 < switch_count board.
Proof.
  split; [reflexivity|].
  exact (parse_switch_number_sound "1-7" servo_platform servo_platform
           (mkSwitchNumber 1 7) eq_refl).
Defined.

(** X4: whatever text it is given, a servo number the parser returns names
    a registered extension board and a non-negative index below the
    board's coil count plus its servo count. *)
Theorem parse_servo_number_sound (number : string) (p p' : Platform)
    (n : PKONEServoNumber) :
  _parse_servo_number number p = (Ok n, p') ->
  exists board,
    Dict.get (board_address_id n) (pkone_extensions p) = Some board
    /\ 0 <= board_address_id n
    /\ 0 <= servo_number n < coil_count board + servo_count board.
Proof.
  unfold _parse_servo_number, bind, lift, gets, ret, raise.
  destruct (split_number number) as [[a b]|] eqn:Hs; [simpl|done].
  apply split_number_fields_free in Hs as [Ha Hb].
  destruct (Py.int a) as [board_id|] eqn:Hia; [|done].
  destruct (Py.int b) as [index|] eqn:Hib; [|done].
  apply (int_nonneg a _ Ha) in Hia. apply (int_nonneg b _ Hb) in Hib.
  destruct (Dict.get board_id (pkone_extensions p)) as [board|] eqn:Hg; [|done].
  destruct (Z.leb_spec (servo_count board) (index - coil_count board)); [done|].
  intros [= <- <-]. exists board. simpl. repeat split; (done || lia).
Qed.

Lemma parse_servo_number_sound_witness :
  _parse_servo_number "1-5" servo_platform
    = (Ok (mkServoNumber 1 5), servo_platform)
  /\ exists board,
       Dict.get 1 (pkone_extensions servo_platform) = Some board
       /\ 0 <= 1 /\ 0 <= 5 < coil_count board + servo_count board.
Proof.
  split; [reflexivity|].
  exact (parse_servo_number_sound "1-5" servo_platform servo_platform
           (mkServoNumber 1 5) eq_refl).
Defined.

(** X5: none of the three parsers changes the platform, whether it
    returns a number or raises. *)
Theorem parsers_read_only (number : string) (p : Platform) :
  snd (_parse_coil_number number p) = p
  /\ snd (_parse_servo_number number p) = p
  /\ snd (_parse_switch_number number p) = p.
Proof.
  unfold _parse_coil_number, _parse_servo_number, _parse_switch_number,
    bind, lift, gets, ret, raise.
  destruct (split_number number) as [[a b]|]; [simpl|done].
  destruct (Py.int a) as [board_id|]; [|done].
  destruct (Py.int b) as [index|]; [|done].
  destruct (Dict.get board_id (pkone_extensions p)) as [board|]; [|done].
  by destruct (coil_count board <=? index),
              (servo_count board <=? index - coil_count board),
              (switch_count board <=? index).
Qed.

(** ** Number parsing on printed numbers *)





(** ** Board registration *)

Lemma dict_mem_false_fst {V} (k : Z) (d : Dict.t V) :
  Dict.mem k d = false <-> k ∉ map fst d.
Proof.
  unfold Dict.mem. induction d as [|[k' v] d IH]; simpl.
  - split; [intros _; apply not_elem_of_nil | done].
  - rewrite not_elem_of_cons. destruct (Z.eqb_spec k k') as [->|Hne].
    + split; [done|]. by intros [? _].
    + rewrite IH. split; [by intros ? | by intros [_ ?]].
Qed.

Lemma dict_get_app_fresh {V} (k a : Z) (v : V) (d : Dict.t V) :
  Dict.mem a d = false ->
  Dict.get k (d ++ [(a, v)])%list
  = if Z.eqb k a then Some v else Dict.get k d.
Proof.
  unfold Dict.mem. induction d as [|[k' v'] d IH]; simpl; [done|].
  destruct (Z.eqb_spec a k') as [->|Ha]; [done|]. intros Hd.
  destruct (Z.eqb_spec k k') as [->|Hk].
  - destruct (Z.eqb_spec k' a); [congruence|done].
  - by apply IH.
Qed.

(** What a registration that returns has done, for either method. *)
Lemma register_ok_inv (r : registration) (p p' : Platform) :
  register r p = (Ok tt, p') ->
  let board := match r with RegisterExtension b | RegisterLightshow b => b end in
  p' = with_extensions
         (pkone_extensions p ++ [(address_id board, board)])%list p
  /\ Dict.mem (address_id board) (pkone_extensions p) = false
  /\ Dict.mem (address_id board) (pkone_lightshows p) = false
  /\ 0 <= address_id board < 8.
Proof.
  destruct r as [board|board]; simpl;
    unfold register_extension_board, register_lightshow_board,
      bind, gets, modify, raise, in_range;
    destruct (Dict.mem (address_id board) (pkone_extensions p)) eqn:He; try done;
    destruct (Dict.mem (address_id board) (pkone_lightshows p)) eqn:Hl; try done;
    simpl;
    destruct (Z.leb_spec 0 (address_id board)); try done.
  - destruct (Z.ltb_spec (address_id board) 8); try done.
    simpl. intros [= <-]. rewrite set_fresh by done. repeat split; (done || lia).
  - destruct (Z.ltb_spec (address_id board) 4); try done.
    simpl. intros [= <-]. rewrite set_fresh by done. repeat split; (done || lia).
Qed.

Lemma register_raise_unchanged (r : registration) (p p' : Platform) (e : exn) :
  register r p = (Raise e, p') -> p' = p.
Proof.
  destruct r as [board|board]; simpl;
    unfold register_extension_board, register_lightshow_board,
      bind, gets, modify, raise;
    destruct (Dict.mem (address_id board) (pkone_extensions p)
              || Dict.mem (address_id board) (pkone_lightshows p));
    try (destruct (negb (in_range _ (address_id board))));
    by intros [= ? ?].
Qed.

(** X8: an extension board whose registration returns becomes the last
    board in the map's iteration order and is found under its address;
    every other address reads as before, and nothing else on the platform
    changes. *)
Theorem register_extension_board_appends (board : Board) (p p' : Platform) :
  register_extension_board board p = (Ok tt, p') ->
  Dict.values (pkone_extensions p') = (Dict.values (pkone_extensions p) ++ [board])%list
  /\ Dict.get (address_id board) (pkone_extensions p') = Some board
  /\ (forall k, k <> address_id board ->
        Dict.get k (pkone_extensions p') = Dict.get k (pkone_extensions p))
  /\ p' = with_extensions (pkone_extensions p') p.
Proof.
  intros H. apply (register_ok_inv (RegisterExtension board)) in H
    as (-> & He & _ & _). simpl.
  repeat split.
  - unfold Dict.values. by rewrite map_app.
  - rewrite dict_get_app_fresh by done. by rewrite Z.eqb_refl.
  - intros k Hk. rewrite dict_get_app_fresh by done.
    by destruct (Z.eqb_spec k (address_id board)).
Qed.

Lemma register_extension_board_appends_witness :
  register_extension_board (sample_board 2) servo_platform
    = (Ok tt, with_extensions [(1, sample_board 1); (2, sample_board 2)] init)
  /\ Dict.values [(1, sample_board 1); (2, sample_board 2)]
     = (Dict.values (pkone_extensions servo_platform) ++ [sample_board 2])%list
  /\ Dict.get 2 [(1, sample_board 1); (2, sample_board 2)] = Some (sample_board 2)
  /\ (forall k, k <> 2 ->
        Dict.get k [(1, sample_board 1); (2, sample_board 2)]
        = Dict.get k (pkone_extensions servo_platform))
  /\ with_extensions [(1, sample_board 1); (2, sample_board 2)] init
     = with_extensions [(1, sample_board 1); (2, sample_board 2)] servo_platform.
Proof.
  split; [reflexivity|].
  exact (register_extension_board_appends (sample_board 2) servo_platform
           (with_extensions [(1, sample_board 1); (2, sample_board 2)] init)
           eq_refl).
Defined.

Lemma register_step_ok (r : registration) (p : Platform) :
  registry_ok p -> registry_ok (snd (register r p)).
Proof.
  intros [Hnd Hall].
  destruct (register r p) as [[[]|e] p'] eqn:Hr; simpl.
  - apply register_ok_inv in Hr as (-> & He & _ & Hrange).
    split; simpl.
    + rewrite map_app. simpl. apply NoDup_app. split; [done|]. split.
      * intros k Hk ->%list_elem_of_singleton.
        by apply dict_mem_false_fst in He.
      * apply NoDup_singleton.
    + apply Forall_app. split; [done|]. apply Forall_singleton. simpl. split; [lia|done].
  - by apply register_raise_unchanged in Hr as ->.
Qed.

Lemma register_all_ok (rs : list registration) (p : Platform) :
  registry_ok p -> registry_ok (register_all rs p).
Proof.
  revert p. induction rs as [|r rs IH]; intros p Hp; [done|].
  simpl. apply IH. by apply register_step_ok.
Qed.

Lemma dict_get_elem {V} (k : Z) (v : V) (d : Dict.t V) :
  Dict.get k d = Some v -> (k, v) ∈ d.
Proof.
  induction d as [|[k' v'] d IH]; simpl; [done|].
  destruct (Z.eqb_spec k k') as [->|Hne].
  - intros [= ->]. apply list_elem_of_here.
  - intros H. apply list_elem_of_further. by apply IH.
Qed.

Lemma registry_ok_length (p : Platform) :
  registry_ok p -> (length (pkone_extensions p) <= 8)%nat.
Proof.
  intros [Hnd Hall].
  rewrite <- (length_map fst).
  change 8%nat with (length (seqZ 0 8)).
  apply submseteq_length, NoDup_submseteq; [done|].
  intros k Hk. apply list_elem_of_fmap in Hk as ([k' b] & -> & Hin).
  rewrite Forall_forall in Hall. apply Hall in Hin as [Hr _]. simpl in *.
  apply elem_of_seqZ. lia.
Qed.

(** X9: after any run of registration requests on a new platform,
    succeeding or not and of either family, the extension map holds no
    address twice and at most eight boards, and every board found under
    an address has that address, one of 0..7, as its own. *)
Theorem registrations_keep_registry_ok (rs : list registration) :
  registry_ok (register_all rs init)
  /\ (length (pkone_extensions (register_all rs init)) <= 8)%nat
  /\ (forall k board,
        Dict.get k (pkone_extensions (register_all rs init)) = Some board ->
        address_id board = k /\ 0 <= k < 8).
Proof.
  assert (registry_ok (register_all rs init)) as Hok.
  { apply register_all_ok. split; [apply NoDup_nil_2 | apply Forall_nil_2]. }
  split; [done|]. split; [by apply registry_ok_length|].
  intros k board Hg. apply dict_get_elem in Hg.
  destruct Hok as [_ Hall]. rewrite Forall_forall in Hall.
  apply Hall in Hg as [Hr Ha]. simpl in *. by split.
Qed.

Example nine_requests_eight_boards :
  length (pkone_extensions
            (register_all
               (map (fun a => RegisterExtension (sample_board a))
                    [0; 1; 2; 3; 4; 5; 6; 7; 8; 3])
               init)) = 8%nat.
Proof. reflexivity. Qed.

(** ** Same-board check *)

Lemma total_app (count : Board -> Z) (l1 l2 : list Board) :
  total count (l1 ++ l2) = total count l1 + total count l2.
Proof. induction l1 as [|b l1 IH]; simpl; lia. Qed.

Lemma total_nonneg (count : Board -> Z) (l : list Board) :
  Forall (fun b => 0 <= count b) l -> 0 <= total count l.
Proof. induction 1; simpl; lia. Qed.

Lemma same_board_values (p : Platform) (sn cn : Z) :
  _check_switch_coil_combination sn cn p = (Ok tt, p)
  <-> exists i b, accepts_at (Dict.values (pkone_extensions p)) sn cn i b.
Proof.
  unfold _check_switch_coil_combination, bind, gets, ret, raise.
  pose proof (check_boards_true_iff (Dict.values (pkone_extensions p)) 0 0 sn cn) as Hiff.
  destruct (check_boards (Dict.values (pkone_extensions p)) 0 0 sn cn).
  - split; [intros _|done]. destruct Hiff as [Hiff _].
    destruct (Hiff eq_refl) as (i & b & Hi & Hs & Hc).
    exists i, b. unfold accepts_at. repeat split; (done || lia).
  - split; [done|]. intros (i & b & Hi & Hs & Hc).
    destruct Hiff as [_ Hiff]. discriminate Hiff.
    exists i, b. repeat split; (done || lia).
Qed.

Lemma accepts_at_app (boards more : list Board) (sn cn : Z) (i : nat) (b : Board) :
  accepts_at boards sn cn i b -> accepts_at (boards ++ more) sn cn i b.
Proof.
  intros (Hi & Hs & Hc). pose proof (lookup_lt_Some _ _ _ Hi) as Hlt.
  unfold accepts_at. rewrite take_app_le by lia.
  split; [|done]. by apply lookup_app_l_Some.
Qed.

(** X10: registering one more extension board never takes away a switch
    and coil pair the same-board check accepted before. *)
Theorem check_survives_registration
    (board : Board) (p p' : Platform) (switch_number coil_number : Z) :
  _check_switch_coil_combination switch_number coil_number p = (Ok tt, p) ->
  register_extension_board board p = (Ok tt, p') ->
  _check_switch_coil_combination switch_number coil_number p' = (Ok tt, p').
Proof.
  intros Hcheck Hreg.
  apply (register_ok_inv (RegisterExtension board)) in Hreg as (-> & _).
  apply same_board_values in Hcheck as (i & b & Hacc).
  apply same_board_values. exists i, b. simpl.
  unfold Dict.values. rewrite map_app. by apply accepts_at_app.
Qed.

Lemma check_survives_registration_witness :
  _check_switch_coil_combination 9 5 two_boards = (Ok tt, two_boards)
  /\ register_extension_board (sample_board 7) two_boards
     = (Ok tt, snd (register_extension_board (sample_board 7) two_boards))
  /\ _check_switch_coil_combination 9 5
       (snd (register_extension_board (sample_board 7) two_boards))
     = (Ok tt, snd (register_extension_board (sample_board 7) two_boards)).
Proof.
  split; [reflexivity|]. split; [reflexivity|].
  exact (check_survives_registration (sample_board 7) two_boards _ 9 5
           eq_refl eq_refl).
Defined.

Lemma counts_ok_switch (boards : list Board) :
  counts_ok boards -> Forall (fun b => 0 <= switch_count b) boards.
Proof. intros H. eapply Forall_impl; [exact H|]. by intros b [? _]. Qed.

Lemma counts_ok_coil (boards : list Board) :
  counts_ok boards -> Forall (fun b => 0 <= coil_count b) boards.
Proof. intros H. eapply Forall_impl; [exact H|]. by intros b [_ ?]. Qed.

Lemma total_split (count : Board -> Z) (boards : list Board) (i : nat) (b : Board) :
  boards !! i = Some b ->
  total count boards
  = total count (take i boards) + count b + total count (drop (S i) boards).
Proof.
  intros Hi. rewrite <- (take_drop_middle boards i b Hi) at 1.
  rewrite total_app. simpl. lia.
Qed.

Lemma total_take_mono (count : Board -> Z) (boards : list Board) (i j : nat) (b : Board) :
  Forall (fun b => 0 <= count b) boards ->
  boards !! i = Some b -> (i < j)%nat ->
  total count (take i boards) + count b <= total count (take j boards).
Proof.
  intros Hall Hi Hij.
  assert (take j boards !! i = Some b) as Hi' by (by rewrite lookup_take_lt).
  rewrite (total_split count (take j boards) i b Hi').
  rewrite take_take. replace (i `min` j)%nat with i by lia.
  pose proof (total_nonneg count (drop (S i) (take j boards))) as Hrest.
  assert (0 <= total count (drop (S i) (take j boards))); [|lia].
  apply Hrest. by apply Forall_drop, Forall_take.
Qed.

(** X11: when no board has a negative count, a pair the same-board check
    accepts has its switch number within the total number of switches of
    all extension boards and its coil number within their total number of
    coils. *)
Theorem check_accepts_within_totals (p : Platform) (switch_number coil_number : Z) :
  counts_ok (Dict.values (pkone_extensions p)) ->
  _check_switch_coil_combination switch_number coil_number p = (Ok tt, p) ->
  0 <= switch_number < total switch_count (Dict.values (pkone_extensions p))
  /\ 0 <= coil_number < total coil_count (Dict.values (pkone_extensions p)).
Proof.
  intros Hok Hcheck.
  apply same_board_values in Hcheck as (i & b & Hi & Hs & Hc).
  set (boards := Dict.values (pkone_extensions p)) in *.
  pose proof (total_split switch_count boards i b Hi) as Hss.
  pose proof (total_split coil_count boards i b Hi) as Hcs.
  pose proof (total_nonneg switch_count (take i boards)
                (Forall_take _ _ _ (counts_ok_switch _ Hok))).
  pose proof (total_nonneg switch_count (drop (S i) boards)
                (Forall_drop _ _ _ (counts_ok_switch _ Hok))).
  pose proof (total_nonneg coil_count (take i boards)
                (Forall_take _ _ _ (counts_ok_coil _ Hok))).
  pose proof (total_nonneg coil_count (drop (S i) boards)
                (Forall_drop _ _ _ (counts_ok_coil _ Hok))).
  lia.
Qed.

Lemma check_accepts_within_totals_witness :
  counts_ok (Dict.values (pkone_extensions two_boards))
  /\ _check_switch_coil_combination 9 5 two_boards = (Ok tt, two_boards)
  /\ 0 <= 9 < total switch_count (Dict.values (pkone_extensions two_boards))
  /\ 0 <= 5 < total coil_count (Dict.values (pkone_extensions two_boards)).
Proof.
  assert (counts_ok (Dict.values (pkone_extensions two_boards))) as Hok
    by (repeat constructor; simpl; lia).
  split; [exact Hok|]. split; [reflexivity|].
  exact (check_accepts_within_totals two_boards 9 5 Hok eq_refl).
Defined.

Lemma accepting_step_unique
    (boards : list Board) (sn cn cn' : Z) (i j : nat) (b b' : Board) :
  counts_ok boards ->
  accepts_at boards sn cn i b -> accepts_at boards sn cn' j b' ->
  i = j /\ b = b'.
Proof.
  intros Hok (Hi & Hsi & _) (Hj & Hsj & _).
  assert (i = j) as ->.
  { destruct (Nat.lt_trichotomy i j) as [Hlt|[->|Hgt]]; [|done|].
    - pose proof (total_take_mono switch_count boards i j b
                    (counts_ok_switch _ Hok) Hi Hlt). lia.
    - pose proof (total_take_mono switch_count boards j i b'
                    (counts_ok_switch _ Hok) Hj Hgt). lia. }
  split; [done|]. congruence.
Qed.

(** X12: when no board has a negative count, a switch pairs with the
    coils of one board only: two coil numbers that the same-board check
    both accepts together with one switch number lie in the coil range of
    the same step of the walk, the one whose switch range holds the
    switch. *)
Theorem switch_pairs_with_one_board
    (p : Platform) (switch_number coil_number coil_number' : Z) :
  counts_ok (Dict.values (pkone_extensions p)) ->
  _check_switch_coil_combination switch_number coil_number p = (Ok tt, p) ->
  _check_switch_coil_combination switch_number coil_number' p = (Ok tt, p) ->
  exists i b,
    accepts_at (Dict.values (pkone_extensions p)) switch_number coil_number i b
    /\ accepts_at (Dict.values (pkone_extensions p)) switch_number coil_number' i b.
Proof.
  intros Hok H1 H2.
  apply same_board_values in H1 as (i & b & Hacc).
  apply same_board_values in H2 as (j & b' & Hacc').
  destruct (accepting_step_unique _ _ _ _ _ _ _ _ Hok Hacc Hacc') as [-> ->].
  by exists j, b'.
Qed.

Lemma switch_pairs_with_one_board_witness :
  counts_ok (Dict.values (pkone_extensions two_boards))
  /\ _check_switch_coil_combination 9 5 two_boards = (Ok tt, two_boards)
  /\ _check_switch_coil_combination 9 7 two_boards = (Ok tt, two_boards)
  /\ exists i b,
       accepts_at (Dict.values (pkone_extensions two_boards)) 9 5 i b
       /\ accepts_at (Dict.values (pkone_extensions two_boards)) 9 7 i b.
Proof.
  assert (counts_ok (Dict.values (pkone_extensions two_boards))) as Hok
    by (repeat constructor; simpl; lia).
  split; [exact Hok|]. split; [reflexivity|]. split; [reflexivity|].
  exact (switch_pairs_with_one_board two_boards 9 5 7 Hok eq_refl eq_refl).
Defined.

(** ** Single switch changes *)

Lemma string_length_app (s t : string) :
  String.length (s +:+ t) = (String.length s + String.length t)%nat.
Proof. induction s as [|c s IH]; simpl; [done|by rewrite IH]. Qed.


Lemma substring_0_app (s t : string) :
  String.substring 0 (String.length s) (s +:+ t) = s.
Proof.
  induction s as [|x s IH]; simpl; [by destruct t|by rewrite IH].
Qed.

Lemma substring_0_all (s : string) :
  String.substring 0 (String.length s) s = s.
Proof. induction s as [|x s IH]; simpl; [done|by rewrite IH]. Qed.

Lemma substring_skip (s t : string) (n : nat) :
  String.substring (String.length s) n (s +:+ t) = String.substring 0 n t.
Proof. induction s as [|x s IH]; simpl; done. Qed.

Lemma string_app_cons (x : ascii) (s t : string) :
  String x s +:+ t = String x (s +:+ t).
Proof. reflexivity. Qed.


Lemma str_digit (d : Z) :
  0 <= d <= 9 ->
  exists c, Py.str d = String c EmptyString /\ Py.digit c = Some d.
Proof.
  intros Hd.
  assert (d = 0 \/ d = 1 \/ d = 2 \/ d = 3 \/ d = 4 \/ d = 5 \/ d = 6
          \/ d = 7 \/ d = 8 \/ d = 9) as H by lia.
  repeat (destruct H as [->|H]; [by eexists|]). subst. by eexists.
Qed.

Lemma int_char_inv (c : ascii) (n : Z) :
  Py.int (Py.char c) = Ok n -> Py.digit c = Some n.
Proof.
  destruct c as [[] [] [] [] [] [] [] []]; vm_compute;
    intros H; (discriminate H || (injection H as <-; reflexivity)).
Qed.

Lemma int_char_digit (c : ascii) (d : Z) :
  Py.digit c = Some d -> Py.int (Py.char c) = Ok d.
Proof.
  intros Hd. pose proof (digit_range c d Hd) as Hr.
  destruct (str_digit d Hr) as (c' & Hs & Hd').
  assert (c' = c) as ->.
  { revert Hd Hd'. unfold Py.digit.
    destruct (_ && _); [|done]. destruct (_ && _); [|done].
    intros [= H1] [= H2].
    assert (N_of_ascii c' = N_of_ascii c) as Heq by lia.
    by rewrite <- (ascii_N_embedding c'), <- (ascii_N_embedding c), Heq. }
  unfold Py.char. rewrite <- Hs. apply int_str. lia.
Qed.



(** X14: a single-change frame is decoded only when its fifth and its
    last character are decimal digits, and then exactly one switch change
    (that board, that state, the number read between them) is handed on;
    in every other case the method raises and the platform is as before. *)
Theorem receive_switch_outcome (msg : string) (p : Platform) :
  match receive_switch msg p with
  | (Ok _, p') =>
      exists fifth final board number state,
        String.get 4 msg = Some fifth /\ Py.digit fifth = Some board
        /\ Py.last msg = Ok final /\ Py.digit final = Some state
        /\ Py.int (Py.slice msg 5 2) = Ok number
        /\ p' = after_switch (mkSwitchNumber board number) state p
  | (Raise _, p') => p' = p
  end.
Proof.
  unfold receive_switch, bind, lift, Py.index.
  destruct (String.get 4 msg) as [fifth|] eqn:H4; cbn [rbind]; [|done].
  destruct (Py.int (Py.char fifth)) as [board|] eqn:Hb; [|done].
  destruct (Py.int (Py.slice msg 5 2)) as [number|] eqn:Hn; [|done].
  destruct (Py.last msg) as [final|] eqn:Hl; cbn [rbind]; [|done].
  destruct (Py.int (Py.char final)) as [state|] eqn:Hs; [|done].
  apply int_char_inv in Hb. apply int_char_inv in Hs.
  cbn. by exists fifth, final, board, number, state.
Qed.

(** The frame layout the method's comment gives ends in the letter E,
    which is where the method looks for the state digit. *)
Example receive_switch_trailing_E :
  receive_switch "PSW3121E" init = (Raise ValueError, init).
Proof. reflexivity. Qed.

(** ** Bulk snapshots *)

Lemma split_nonempty (sep : ascii) (s : string) : Py.split sep s <> [].
Proof.
  intros H. pose proof (length_split sep s) as Hlen. by rewrite H in Hlen.
Qed.

Lemma split_snoc_sep (sep : ascii) (s : string) :
  Py.split sep (s +:+ String sep EmptyString)
  = (Py.split sep s ++ [EmptyString])%list.
Proof.
  induction s as [|c r IH].
  - change (Py.split sep (String sep EmptyString) = [EmptyString; EmptyString]).
    cbn [Py.split]. by rewrite Ascii.eqb_refl.
  - rewrite string_app_cons. cbn [Py.split].
    destruct (Ascii.eqb c sep); [by rewrite IH|].
    rewrite IH. pose proof (split_nonempty sep r) as Hne.
    by destruct (Py.split sep r).
Qed.

Lemma decode_segments_empty_last (segments : list string) (hw : gmap string Z) :
  exists e, decode_segments (segments ++ [EmptyString]) hw = Raise e.
Proof.
  revert hw. induction segments as [|seg rest IH]; intros hw.
  - by eexists.
  - cbn [app decode_segments].
    destruct (Py.index seg 0) as [c|e]; cbn [rbind]; [|by eexists].
    destruct (Py.int (Py.char c)) as [ext|e]; cbn [rbind]; [|by eexists].
    destruct (Py.bytearray_extend [] (Py.slice_from seg 1)) as [arr|e];
      cbn [rbind]; [apply IH|by eexists].
Qed.

Lemma slice_3_1 (h1 h2 h3 final : ascii) (payload : string) :
  Py.slice (String h1 (String h2 (String h3 (payload +:+ String final EmptyString)))) 3 1
  = payload.
Proof.
  unfold Py.slice. cbn [String.length]. rewrite string_length_app.
  cbn [String.length].
  replace (S (S (S (String.length payload + 1))) - 1 - 3)%nat
    with (String.length payload) by lia.
  cbn [String.substring]. apply substring_0_app.
Qed.

(** X15: a snapshot frame whose payload ends with the segment delimiter X,
    as every segment does in the layout the method's comment gives, is
    never stored: the method raises and the platform, its switch data
    included, is as before.  The same holds for an empty payload. *)
Theorem receive_all_switches_trailing_delimiter
    (h1 h2 h3 final : ascii) (body : string) (p : Platform) :
  (exists e,
     receive_all_switches
       (String h1 (String h2 (String h3
          ((body +:+ String "X" EmptyString) +:+ String final EmptyString)))) p
     = (Raise e, p))
  /\ (exists e,
        receive_all_switches
          (String h1 (String h2 (String h3 (String final EmptyString)))) p
        = (Raise e, p)).
Proof.
  split.
  - unfold receive_all_switches, bind, lift, decode_all_switches.
    rewrite slice_3_1, split_snoc_sep.
    destruct (decode_segments_empty_last (Py.split "X" body) ∅) as [e ->].
    by exists e.
  - by exists IndexError.
Qed.

Example documented_snapshot_raises :
  receive_all_switches "PSA110X201XE" init = (Raise TypeError, init)
  /\ receive_all_switches "PSA1X2XE" init = (Raise IndexError, init).
Proof. by split. Qed.

Lemma decode_segments_bare (segments : list string) (hw : gmap string Z) :
  Forall bare_board segments -> decode_segments segments hw = Ok hw.
Proof.
  intros Hall. revert hw.
  induction Hall as [|seg rest (c & d & -> & Hd) _ IH]; intros hw; [done|].
  cbn [decode_segments]. change (Py.index (String c EmptyString) 0) with (Ok c).
  cbn [rbind]. rewrite (int_char_digit c d Hd). cbn [rbind].
  change (Py.bytearray_extend [] (Py.slice_from (String c EmptyString) 1))
    with (Ok ([] : list Z)).
  cbn [rbind]. apply IH.
Qed.

Lemma decode_segments_ok_bare (segments : list string) (hw hw' : gmap string Z) :
  decode_segments segments hw = Ok hw' -> Forall bare_board segments.
Proof.
  revert hw. induction segments as [|seg rest IH]; intros hw; [by constructor|].
  cbn [decode_segments]. unfold Py.index.
  destruct seg as [|c seg]; [done|]. cbn [String.get rbind].
  destruct (Py.int (Py.char c)) as [ext|] eqn:Hc; cbn [rbind]; [|done].
  apply int_char_inv in Hc.
  assert (Py.slice_from (String c seg) 1 = seg) as ->.
  { unfold Py.slice_from. cbn [String.length].
    replace (S (String.length seg) - 1)%nat with (String.length seg) by lia.
    cbn [String.substring]. apply substring_0_all. }
  destruct seg as [|x seg]; [|done]. cbn [Py.bytearray_extend rbind].
  intros H. constructor; [by exists c, ext | by apply IH in H].
Qed.

(** X16: a snapshot frame is stored exactly when every segment of its
    payload is a single decimal digit, that is, names boards without any
    switch state; what is stored then is the empty map.  Every other
    frame, so every frame that carries a switch state, raises and leaves
    the platform as before. *)
Theorem receive_all_switches_outcome (msg : string) (p : Platform) :
  (Forall bare_board (Py.split "X" (Py.slice msg 3 1)) ->
   receive_all_switches msg p = (Ok tt, with_hw_switch_data (Some ∅) p))
  /\ (~ Forall bare_board (Py.split "X" (Py.slice msg 3 1)) ->
      exists e, receive_all_switches msg p = (Raise e, p)).
Proof.
  unfold receive_all_switches, bind, lift, decode_all_switches. split.
  - intros Hall. by rewrite (decode_segments_bare _ ∅ Hall).
  - intros Hnot.
    destruct (decode_segments (Py.split "X" (Py.slice msg 3 1)) ∅) as [hw|e] eqn:Hd.
    + destruct Hnot. by apply decode_segments_ok_bare in Hd.
    + by exists e.
Qed.

Example bare_boards_snapshot :
  Forall bare_board (Py.split "X" (Py.slice "PSA1X2E" 3 1)).
Proof. repeat constructor; by eexists _, _. Qed.

(** X17: for non-negative board addresses and switch numbers, after the
    states of one board are stored the entry ["<board>-<k>"] holds the
    [k]-th state of that board's array for [k] from 1 to the array's
    length, and every other entry, of this board or of another, is what
    it was before. *)
Theorem store_switch_states_lookup
    (extension_id : Z) (switch_state_array : list Z) (hw_states : gmap string Z)
    (board number : Z) :
  0 <= extension_id -> 0 <= board -> 0 <= number ->
  store_switch_states extension_id switch_state_array hw_states
    !! switch_key board number
  = if decide (board = extension_id
               /\ 1 <= number <= Z.of_nat (length switch_state_array))
    then switch_state_array !! Z.to_nat (number - 1)
    else hw_states !! switch_key board number.
Proof.
  intros He Hb Hn. unfold store_switch_states.
  destruct (decide _) as [[-> Hrange]|Hnot].
  - destruct (lookup_lt_is_Some_2 switch_state_array (Z.to_nat (number - 1)))
      as [state Hstate]; [lia|].
    rewrite Hstate.
    replace number with (Z.of_nat (Z.to_nat (number - 1)) + 1) at 1 by lia.
    apply store_loop_written; [|done].
    apply elem_of_seq. lia.
  - apply store_loop_untouched. intros i Hi Heq.
    apply elem_of_seq in Hi.
    apply switch_key_pair_inj in Heq as [-> ->]; [|lia..].
    apply Hnot. split; [done|lia].
Qed.

Lemma store_switch_states_lookup_witness :
  0 <= 2 /\ 0 <= 2 /\ 0 <= 2
  /\ store_switch_states 2 [49; 48] ∅ !! switch_key 2 2
     = if decide (2 = 2 /\ 1 <= 2 <= Z.of_nat (length [49; 48]))
       then [49; 48] !! Z.to_nat (2 - 1)
       else (∅ : gmap string Z) !! switch_key 2 2.
Proof.
  split; [lia|]. split; [lia|]. split; [lia|].
  apply (store_switch_states_lookup 2 [49; 48] ∅ 2 2); lia.
Defined.

(** ** Servo commands *)

Lemma digit_char_inj (c1 c2 : ascii) (d : Z) :
  Py.digit c1 = Some d -> Py.digit c2 = Some d -> c1 = c2.
Proof.
  unfold Py.digit.
  destruct (_ && _); [|done]. destruct (_ && _); [|done].
  intros [= H1] [= H2].
  assert (N_of_ascii c1 = N_of_ascii c2) as Heq by lia.
  by rewrite <- (ascii_N_embedding c1), <- (ascii_N_embedding c2), Heq.
Qed.

(** X18: while board address and servo number are single digits, the
    position command determines all three of its fields: two commands
    are the same text only if they name the same servo and carry the
    same position value. *)
Theorem servo_command_injective (n1 n2 : PKONEServoNumber) (x1 x2 : Z) :
  0 <= board_address_id n1 <= 9 -> 0 <= servo_number n1 <= 9 ->
  0 <= board_address_id n2 <= 9 -> 0 <= servo_number n2 <= 9 ->
  servo_command n1 x1 = servo_command n2 x2 ->
  n1 = n2 /\ x1 = x2.
Proof.
  destruct n1 as [b1 s1], n2 as [b2 s2]. simpl.
  intros Hb1 Hs1 Hb2 Hs2. unfold servo_command. simpl.
  destruct (str_digit b1 Hb1) as (cb1 & -> & Hcb1).
  destruct (str_digit s1 Hs1) as (cs1 & -> & Hcs1).
  destruct (str_digit b2 Hb2) as (cb2 & -> & Hcb2).
  destruct (str_digit s2 Hs2) as (cs2 & -> & Hcs2).
  intros Heq.
  assert (cb1 = cb2 /\ cs1 = cs2 /\ Py.str x1 = Py.str x2) as (-> & -> & Hx)
    by (by injection Heq).
  split; [|by apply (inj pretty)].
  f_equal; congruence.
Qed.

Lemma servo_command_injective_witness :
  0 <= 1 <= 9 /\ 0 <= 4 <= 9 /\ 0 <= 1 <= 9 /\ 0 <= 4 <= 9
  /\ servo_command (mkServoNumber 1 4) 127 = servo_command (mkServoNumber 1 4) 127
  /\ mkServoNumber 1 4 = mkServoNumber 1 4 /\ 127 = 127.
Proof.
  split; [lia|]. split; [lia|]. split; [lia|]. split; [lia|].
  split; [reflexivity|].
  apply (servo_command_injective (mkServoNumber 1 4) (mkServoNumber 1 4) 127 127);
    (simpl; lia) || reflexivity.
Defined.

(** With a servo number of two digits the fields run together. *)
Example servo_command_collision :
  servo_command (mkServoNumber 1 23) 4 = servo_command (mkServoNumber 1 2) 34.
Proof. reflexivity. Qed.

(** ** Session and configuration methods *)

(** X19: stopping is idempotent.  The first [stop] sends the reset
    command if there is a connection, cancels the watchdog, stops and
    forgets the connection; any further [stop] changes nothing, so the
    reset command is sent, and the watchdog and the connection are shut
    down, at most once. *)
Theorem stop_idempotent {Connection Task : Type} (s : @Session Connection Task) (n : nat) :
  Nat.iter (S n) stop s = stop s
  /\ controller_connection (stop s) = None
  /\ _watchdog_task (stop s) = None
  /\ serial_connections (stop s) = []
  /\ sent (attrs (stop s))
     = (sent (attrs s)
        ++ match controller_connection s with Some _ => ["PRSE"] | None => [] end)%list.
Proof.
  assert (Hidem : stop (stop s) = stop s).
  { destruct s as [p [c|] conns [t|] cs ss]; reflexivity. }
  split.
  - induction n as [|n IH]; [done|].
    change (Nat.iter (S (S n)) stop s) with (stop (Nat.iter (S n) stop s)).
    by rewrite IH.
  - destruct s as [p [c|] conns [t|] cs ss]; simpl;
      repeat split; by rewrite ?app_nil_r.
Qed.

Example stop_live_session :
  stop live_session
  = mkSession (after_send "PRSE" servo_platform) None [] None [1%nat] [7%nat].
Proof. reflexivity. Qed.

Lemma int_raises (s : string) (e : exn) : Py.int s = Raise e -> e = ValueError.
Proof.
  unfold Py.int. destruct (Py.strip s) as [|c r]; simpl.
  - by intros [= <-].
  - repeat match goal with
           | |- context [match ?x with _ => _ end] => destruct x
           end; by intros [= <-].
Qed.

Lemma parse_switch_number_snd (text : string) (p : Platform) :
  snd (_parse_switch_number text p) = p.
Proof.
  unfold _parse_switch_number, bind, lift, gets, ret, raise.
  destruct (split_number text) as [[a b]|]; [simpl|done].
  destruct (Py.int a) as [board_id|]; [|done].
  destruct (Py.int b) as [index|]; [|done].
  destruct (Dict.get board_id (pkone_extensions p)) as [board|]; [|done].
  by destruct (switch_count board <=? index).
Qed.

Lemma parse_switch_number_raises (text : string) (p : Platform) (e : exn) :
  fst (_parse_switch_number text p) = Raise e ->
  e = ValueError \/ exists a, e = AssertionError a.
Proof.
  unfold _parse_switch_number, bind, lift, gets, ret, raise, split_number.
  destruct (Py.split "-" text) as [|a [|b [|c l]]]; simpl;
    try (intros [= <-]; right; by eexists).
  destruct (Py.int a) as [board_id|ea] eqn:Ha; simpl;
    [|intros [= <-]; left; by apply int_raises in Ha].
  destruct (Py.int b) as [index|eb] eqn:Hb; simpl;
    [|intros [= <-]; left; by apply int_raises in Hb].
  destruct (Dict.get board_id (pkone_extensions p)) as [board|]; simpl;
    [|intros [= <-]; right; by eexists].
  destruct (switch_count board <=? index); simpl; [|done].
  intros [= <-]; right; by eexists.
Qed.

(** X20: every failure of [configure_switch] is an assertion error: a
    number whose fields are not integers is reported as such, never as
    the [ValueError] of the conversion.  When it returns, there is a
    connection, the number is not empty, and the switch carries the given
    configuration and the number the parser reads from the text; the
    session is unchanged either way. *)
Theorem configure_switch_outcome
    {Connection Task SwitchConfig PlatformConfig : Type}
    (text : string) (config : SwitchConfig) (platform_config : PlatformConfig)
    (s : @Session Connection Task) :
  match configure_switch text config platform_config s with
  | (Done (config', switch_number), s') =>
      s' = s /\ config' = config
      /\ text <> EmptyString
      /\ is_Some (controller_connection s)
      /\ _parse_switch_number text (attrs s) = (Ok switch_number, attrs s)
  | (Fail f, s') => s' = s /\ assertion_failure f
  end.
Proof.
  assert (Hsame : with_attrs (attrs s) s = s) by (by destruct s).
  unfold configure_switch.
  destruct text as [|c text]; [done|]. set (txt := String c text).
  destruct (controller_connection s) as [conn|] eqn:Hconn; [|done].
  pose proof (parse_switch_number_snd txt (attrs s)) as Hsnd.
  pose proof (parse_switch_number_raises txt (attrs s)) as Hraise.
  unfold on_attrs.
  destruct (_parse_switch_number txt (attrs s)) as [[n|e] p1] eqn:Hp;
    simpl in Hsnd, Hraise; subst p1; rewrite Hsame.
  - rewrite Hp, Hsame. repeat split; (done || by eexists).
  - destruct (Hraise e eq_refl) as [->|[a ->]]; by split.
Qed.

Lemma configure_switch_text_fails :
  fst (configure_switch "1-x" tt tt live_session) = Fail CouldNotParse.
Proof. reflexivity. Qed.

Lemma configure_driver_text_fails :
  fst (configure_driver tt "1-x" tt live_session) = Fail (Inner ValueError).
Proof. reflexivity. Qed.

Lemma parse_servo_number_snd (text : string) (p : Platform) :
  snd (_parse_servo_number text p) = p.
Proof.
  unfold _parse_servo_number, bind, lift, gets, ret, raise.
  destruct (split_number text) as [[a b]|]; [simpl|done].
  destruct (Py.int a) as [board_id|]; [|done].
  destruct (Py.int b) as [index|]; [|done].
  destruct (Dict.get board_id (pkone_extensions p)) as [board|]; [|done].
  by destruct (servo_count board <=? index - coil_count board).
Qed.

(** X21: [configure_servo] asks for no connection, and a servo configured
    while there is none keeps none: every later [go_to_position] on it
    raises, whatever the position and whatever the session has become by
    then, and nothing is sent. *)
Theorem offline_servo_never_sends {Connection Task : Type}
    (text : string) (s s' later : @Session Connection Task)
    (servo : @PKONEServo Connection) (position : Py.float) :
  controller_connection s = None ->
  configure_servo text s = (Done servo, s') ->
  exists f, servo_go_to_position servo position later = (Fail f, later).
Proof.
  intros Hnone. unfold configure_servo, on_attrs.
  destruct (_parse_servo_number text (attrs s)) as [[n|e] p1]; [|done].
  intros [= <- <-]. unfold servo_go_to_position. simpl. rewrite Hnone.
  destruct (go_to_position n position (attrs later)) as [[[]|e] p2]; by eexists.
Qed.

Lemma offline_servo_never_sends_witness :
  controller_connection offline_session = None
  /\ configure_servo "1-4" offline_session
     = (Done (mkServo (mkServoNumber 1 4) None), offline_session)
  /\ exists f,
       servo_go_to_position (mkServo (mkServoNumber 1 4) None) half live_session
       = (Fail f, live_session).
Proof.
  split; [reflexivity|]. split; [reflexivity|].
  exact (offline_servo_never_sends "1-4" offline_session offline_session
           live_session (mkServo (mkServoNumber 1 4) None) half eq_refl eq_refl).
Defined.

(** X22: with a connection, configuring the servo printed as
    ["<board>-<index>"] on a registered board and moving it to a position
    from 0 to 1 sends exactly one command, the position command of that
    board and index with a value from 0 to 255, and changes nothing
    else. *)
Theorem configured_servo_sends {Connection Task : Type}
    (board_id index : Z) (board : Board) (connection : Connection)
    (position : Py.float) (s : @Session Connection Task) :
  controller_connection s = Some connection ->
  0 <= board_id -> 0 <= index ->
  Dict.get board_id (pkone_extensions (attrs s)) = Some board ->
  index < coil_count board + servo_count board ->
  is_float position -> in_unit_interval position ->
  exists servo n,
    configure_servo (number_text board_id index) s = (Done servo, s)
    /\ 0 <= n <= 255
    /\ servo_go_to_position servo position s
       = (Done tt,
          with_attrs
            (after_send (servo_command (mkServoNumber board_id index) n) (attrs s)) s).
Proof.
  intros Hconn Hb Hi Hg Hlt Hfloat Hunit.
  assert (Hsame : with_attrs (attrs s) s = s) by (by destruct s).
  destruct (position_numeric_range position Hfloat Hunit) as (n & Hn & Hrange).
  exists (mkServo (mkServoNumber board_id index) (Some connection)), n.
  split; [|split; [done|]].
  - unfold configure_servo, on_attrs.
    rewrite (parse_servo_number_text board_id index board) by done.
    destruct (Z.leb_spec (servo_count board) (index - coil_count board)); [lia|].
    by rewrite Hsame, Hconn.
  - unfold servo_go_to_position. simpl.
    by rewrite (go_to_position_in_range _ position n (attrs s)
                  (unit_interval_guard position Hunit) Hn).
Qed.

Lemma configured_servo_sends_witness :
  controller_connection live_session = Some 7%nat
  /\ 0 <= 1 /\ 0 <= 4
  /\ Dict.get 1 (pkone_extensions (attrs live_session)) = Some (sample_board 1)
  /\ 4 < coil_count (sample_board 1) + servo_count (sample_board 1)
  /\ is_float half /\ in_unit_interval half
  /\ exists servo n,
       configure_servo (number_text 1 4) live_session = (Done servo, live_session)
       /\ 0 <= n <= 255
       /\ servo_go_to_position servo half live_session
          = (Done tt,
             with_attrs
               (after_send (servo_command (mkServoNumber 1 4) n) (attrs live_session))
               live_session).
Proof.
  assert (is_float half /\ in_unit_interval half) as [Hf Hu] by (by vm_compute).
  split; [reflexivity|]. split; [lia|]. split; [lia|]. split; [reflexivity|].
  split; [simpl; lia|]. split; [exact Hf|]. split; [exact Hu|].
  apply (configured_servo_sends 1 4 (sample_board 1) 7%nat half live_session);
    (reflexivity || lia || (simpl; lia) || assumption).
Defined.

(** ** Positions that are not in the unit interval *)

Lemma SFcompare_none (x y : Py.float) :
  SFcompare x y = None -> x = S754_nan \/ y = S754_nan.
Proof.
  destruct x as [sx|sx| |sx mx ex], y as [sy|sy| |sy my ey]; simpl;
    try discriminate; auto.
Qed.

Lemma SFltb_false_SFleb (x y : Py.float) :
  x <> S754_nan -> y <> S754_nan -> SFltb x y = false -> SFleb y x = true.
Proof.
  intros Hx Hy. unfold SFltb, SFleb. rewrite (SFcompare_antisym x y).
  destruct (SFcompare x y) as [[]|] eqn:Hc; simpl; try done.
  by destruct (SFcompare_none x y Hc).
Qed.

(** X23: for a float position [go_to_position] has three outcomes and no
    other: not-a-number gets past the range check and fails in the
    integer conversion with [ValueError]; a position below 0 or above 1,
    the infinities included, raises the position error; every remaining
    position sends one command with a value from 0 to 255.  Nothing is
    sent in the first two cases. *)
Theorem go_to_position_outcomes
    (servo_number : PKONEServoNumber) (position : Py.float) (p : Platform) :
  is_float position ->
  (position = S754_nan
   /\ go_to_position servo_number position p = (Raise ValueError, p))
  \/ (position <> S754_nan
      /\ Py.flt position (Py.float_of_Z 0) || Py.flt (Py.float_of_Z 1) position = true
      /\ go_to_position servo_number position p
         = (Raise (AssertionError PositionOutOfRange), p))
  \/ (position <> S754_nan
      /\ Py.flt position (Py.float_of_Z 0) || Py.flt (Py.float_of_Z 1) position = false
      /\ exists n, 0 <= n <= 255
           /\ go_to_position servo_number position p
              = (Ok tt, after_send (servo_command servo_number n) p)).
Proof.
  intros Hfloat.
  assert (position = S754_nan \/ position <> S754_nan) as [->|Hnan]
    by (destruct position; (by left) || (by right)).
  { by left. }
  right.
  destruct (Py.flt position (Py.float_of_Z 0) || Py.flt (Py.float_of_Z 1) position)
    eqn:Hguard.
  - left. split; [done|]. split; [done|]. by apply go_to_position_out_of_range.
  - right. split; [done|]. split; [done|].
    apply orb_false_elim in Hguard as [H0 H1].
    assert (in_unit_interval position) as Hunit.
    { destruct float_constants as (E0 & E1 & _).
      split; apply SFltb_false_SFleb; try done; by rewrite ?E0, ?E1. }
    destruct (position_numeric_range position Hfloat Hunit) as (n & Hn & Hrange).
    exists n. split; [done|].
    apply go_to_position_in_range; [by apply unit_interval_guard | done].
Qed.

Lemma go_to_position_outcomes_witness :
  is_float (S754_infinity false)
  /\ ((S754_infinity false = S754_nan
       /\ go_to_position (mkServoNumber 1 4) (S754_infinity false) init
          = (Raise ValueError, init))
      \/ (S754_infinity false <> S754_nan
          /\ Py.flt (S754_infinity false) (Py.float_of_Z 0)
             || Py.flt (Py.float_of_Z 1) (S754_infinity false) = true
          /\ go_to_position (mkServoNumber 1 4) (S754_infinity false) init
             = (Raise (AssertionError PositionOutOfRange), init))
      \/ (S754_infinity false <> S754_nan
          /\ Py.flt (S754_infinity false) (Py.float_of_Z 0)
             || Py.flt (Py.float_of_Z 1) (S754_infinity false) = false
          /\ exists n, 0 <= n <= 255
               /\ go_to_position (mkServoNumber 1 4) (S754_infinity false) init
                  = (Ok tt, after_send (servo_command (mkServoNumber 1 4) n) init))).
Proof.
  split; [reflexivity|].
  exact (go_to_position_outcomes (mkServoNumber 1 4) (S754_infinity false) init
           eq_refl).
Defined.
